(** * gologs: a leveled logger, embedded and verified

    A shallow embedding of [gologs.go]: the level registry, the [Logger]
    configuration record, its setters, the rendering function [Format]
    and the emission pipeline, over an explicit model of the process
    environment (clock, file system, standard output, caller-supplied
    writers).  Go strings are byte strings, here [string]; [LogLevel] is
    a Go [int], here [Z] (levels are only compared, never computed
    with); Go maps are [gmap]s.  The embedding is sequential: the two
    mutexes of [Logger] guard no data of their own and are left out. *)

From Stdlib Require Import ZArith String Ascii List Lia DecimalString.
From stdpp Require Import gmap strings.

Local Open Scope string_scope.
Local Open Scope Z_scope.

(** ** Byte strings *)

(** [skip n s] is Go's [s[n:]] (the empty string when [n] runs past the end). *)
Fixpoint skip (n : nat) (s : string) : string :=
  match n, s with
  | O, _ => s
  | S _, EmptyString => EmptyString
  | S k, String _ t => skip k t
  end.

(** [strings.Replace(s, old, new, -1)] for a non-empty [old]: scan from
    the left, replace each match and resume after it.  The fuel is the
    length of the text still to scan. *)
Fixpoint replace_loop (fuel : nat) (old new s : string) : string :=
  match fuel with
  | O => s
  | S k =>
      match s with
      | EmptyString => EmptyString
      | String c t =>
          if String.prefix old s
          then new ++ replace_loop k old new (skip (String.length old) s)
          else String c (replace_loop k old new t)
      end
  end.

(** With an empty [old], Go inserts [new] in front of every character
    and at the end.  (Go steps by UTF-8 sequence, this model by byte;
    [Format] only ever passes the two non-empty tokens.) *)
Fixpoint replace_empty (new s : string) : string :=
  match s with
  | EmptyString => new
  | String c t => new ++ String c (replace_empty new t)
  end.

Definition Replace (s old new : string) : string :=
  match old with
  | EmptyString => replace_empty new s
  | _ => replace_loop (String.length s) old new s
  end.

(** [Replace] at a non-empty [old]. *)
Definition replace_all (old new s : string) : string :=
  replace_loop (String.length s) old new s.

(** All suffixes of [s] that are not empty, longest first. *)
Fixpoint tails (s : string) : list string :=
  match s with
  | EmptyString => nil
  | String _ t => s :: tails t
  end.

(** Occurrences that cannot overlap.  [clear_of old t]: no proper
    suffix of [old] is a prefix of [t] or has [t] as a prefix, so no
    occurrence of [old] that starts before an occurrence of [t] reaches
    into it.  [borderless old]: two occurrences of [old] never overlap.
    [apart old t]: moreover no suffix of [t] starts an occurrence of
    [old], so [old] and [t] never overlap at all. *)
Definition clear_of (old t : string) : bool :=
  forallb (fun p => negb (String.prefix p t) && negb (String.prefix t p))
          (tails (skip 1 old)).

Definition borderless (old : string) : bool := clear_of old old.

Definition apart (old t : string) : bool :=
  clear_of old t &&
  forallb (fun q => negb (String.prefix old q) && negb (String.prefix q old))
          (tails t).


(** ** Go's [fmt] on the operands the logger is given

    Operands are strings and ints.  A directive is [%] followed by one
    verb byte: [%%] is a literal percent sign, [%s] and [%v] print a
    string, [%d] and [%v] an int; [%d] on a string and [%s] on an int
    are reported in the output the way [fmt] does
    ([%!verb(type=value)]), a directive with no operand left as
    [%!verb(MISSING)], a lone final [%] as [%!(NOVERB)], operands left
    over as [%!(EXTRA ...)].  This is [fmt.Sprintf] on format strings
    whose directives are among [%s], [%v], [%d] and [%%].  Flags,
    width, precision, argument indexes and the other verbs of [fmt]
    ([%x], [%q], [%c], [%T], ...) are outside this model, which gives
    them the bad-verb text; what is proved of a rendered text below is
    stated for format strings inside the model. *)

Inductive value : Type :=
| VString (s : string)
| VInt (n : Z).

Definition Itoa (n : Z) : string := NilZero.string_of_int (Z.to_int n).

Definition typeString (a : value) : string :=
  match a with
  | VString _ => "string"
  | VInt _ => "int"
  end.

Definition printValue (a : value) : string :=
  match a with
  | VString s => s
  | VInt n => Itoa n
  end.

Definition badVerb (verb : ascii) (a : value) : string :=
  "%!" ++ String verb ("(" ++ typeString a ++ "=" ++ printValue a ++ ")").

Definition printArg (a : value) (verb : ascii) : string :=
  match a, verb with
  | VString s, "s"%char => s
  | VString s, "v"%char => s
  | VInt n, "d"%char => Itoa n
  | VInt n, "v"%char => Itoa n
  | _, _ => badVerb verb a
  end.

Fixpoint extraArgs (a : list value) : string :=
  match a with
  | nil => ""
  | x :: nil => typeString x ++ "=" ++ printValue x
  | x :: rest => typeString x ++ "=" ++ printValue x ++ ", " ++ extraArgs rest
  end.

Definition extraOperands (a : list value) : string :=
  match a with
  | nil => ""
  | _ => "%!(EXTRA " ++ extraArgs a ++ ")"
  end.

Fixpoint Sprintf (format : string) (a : list value) : string :=
  match format with
  | EmptyString => extraOperands a
  | String c rest =>
      if Ascii.eqb c "%" then
        match rest with
        | EmptyString => "%!(NOVERB)" ++ extraOperands a
        | String verb rest' =>
            if Ascii.eqb verb "%" then String "%" (Sprintf rest' a)
            else
              match a with
              | nil => "%!" ++ String verb "(MISSING)" ++ Sprintf rest' nil
              | x :: a' => printArg x verb ++ Sprintf rest' a'
              end
        end
      else String c (Sprintf rest a)
  end.

(** [fmt.Sprintln]: operands in their default format, a space between
    each two, a newline at the end. *)
Fixpoint Sprintln (a : list value) : string :=
  match a with
  | nil => String "010"%char ""
  | x :: nil => printValue x ++ String "010"%char ""
  | x :: rest => printValue x ++ " " ++ Sprintln rest
  end.



Definition newline : string := String "010" "".

(** ** The process environment

    The clock is read as local civil time, which is all that
    [getCurtime] uses of it.  A file is its contents under its path; an
    open [*os.File] is a descriptor number in the table of open files,
    with its access mode, its append flag and its offset.  [unopenable]
    holds the paths that [os.OpenFile] can neither open nor create
    (missing directory, no permission); the empty path never opens.
    [sinks] are the [io.Writer]s that callers hand to the logger, each
    with the bytes written to it so far. *)

Record instant : Type := {
  year : nat; month : nat; day : nat;
  hour : nat; minute : nat; second : nat
}.

Inductive access : Type := O_RDONLY | O_WRONLY | O_RDWR.

Record flags : Type := {
  flag_access : access;
  O_CREATE : bool;
  O_APPEND : bool;
  O_TRUNC : bool
}.

Record descriptor : Type := {
  d_path : string;
  d_access : access;
  d_append : bool;
  d_offset : nat
}.

Record File : Type := { fd : nat; name : string }.

(** An [*os.PathError].  The reason an open fails is the system's;
    the model always reports the same one. *)
Inductive error : Type :=
| PathError (op path reason : string).

Definition errorString (e : error) : string :=
  match e with
  | PathError op path reason => op ++ " " ++ path ++ ": " ++ reason
  end.

Record World : Type := {
  clock : instant;
  files : gmap string string;
  unopenable : gset string;
  open_files : gmap nat descriptor;
  next_fd : nat;
  stdout : string;
  sinks : gmap nat string
}.

Definition with_stdout (out : string) (w : World) : World :=
  {| clock := clock w; files := files w; unopenable := unopenable w;
     open_files := open_files w; next_fd := next_fd w;
     stdout := out; sinks := sinks w |}.

Definition with_sinks (sk : gmap nat string) (w : World) : World :=
  {| clock := clock w; files := files w; unopenable := unopenable w;
     open_files := open_files w; next_fd := next_fd w;
     stdout := stdout w; sinks := sk |}.

Definition with_files (fs : gmap string string) (tbl : gmap nat descriptor)
    (next : nat) (w : World) : World :=
  {| clock := clock w; files := fs; unopenable := unopenable w;
     open_files := tbl; next_fd := next;
     stdout := stdout w; sinks := sinks w |}.

(** [fmt.Print] and [fmt.Println] of one string, on the process's
    standard output. *)
Definition Print (s : string) (w : World) : World :=
  with_stdout (stdout w ++ s) w.

Definition Println (s : string) (w : World) : World :=
  Print (s ++ newline) w.

Definition can_open (w : World) (path : string) : bool :=
  negb (String.eqb path "") && negb (bool_decide (path ∈ unopenable w)).

(** The calls of package [os] that the logger makes. *)
Module os.

(** [os.OpenFile(name, flag, 0666)]: the file is created empty when it
    is missing and [O_CREATE] is given, emptied only under [O_TRUNC];
    the new descriptor starts at offset 0. *)
Definition OpenFile (path : string) (fl : flags) (w : World)
  : (File + error) * World :=
  if can_open w path then
    match files w !! path with
    | Some old =>
        let d := {| d_path := path; d_access := flag_access fl;
                    d_append := O_APPEND fl; d_offset := 0 |} in
        (inl {| fd := next_fd w; name := path |},
         with_files (<[path := if O_TRUNC fl then "" else old]> (files w))
                    (<[next_fd w := d]> (open_files w)) (S (next_fd w)) w)
    | None =>
        if O_CREATE fl then
          let d := {| d_path := path; d_access := flag_access fl;
                      d_append := O_APPEND fl; d_offset := 0 |} in
          (inl {| fd := next_fd w; name := path |},
           with_files (<[path := ""]> (files w))
                      (<[next_fd w := d]> (open_files w)) (S (next_fd w)) w)
        else (inr (PathError "open" path "no such file or directory"), w)
    end
  else (inr (PathError "open" path "no such file or directory"), w).

(** [f.Close()] *)
Definition Close (f : File) (w : World) : World :=
  with_files (files w) (delete (fd f) (open_files w)) (next_fd w) w.

Fixpoint zeros (n : nat) : string :=
  match n with
  | O => ""
  | S k => String "000" (zeros k)
  end.

(** The bytes of a file after [data] is written at offset [off]; a gap
    between the end of the file and [off] reads as zero bytes. *)
Definition write_at (off : nat) (data old : string) : string :=
  substring 0 off (old ++ zeros (off - String.length old))
  ++ data ++ skip (off + String.length data) old.

(** [f.WriteString(data)], and [f.Write] of the same bytes *)
Definition WriteString (f : File) (data : string) (w : World)
  : option error * World :=
  match open_files w !! fd f with
  | None => (Some (PathError "write" (name f) "file already closed"), w)
  | Some d =>
      match d_access d with
      | O_RDONLY => (Some (PathError "write" (name f) "bad file descriptor"), w)
      | _ =>
          let old := default "" (files w !! d_path d) in
          let new := if d_append d then old ++ data
                     else write_at (d_offset d) data old in
          let d' := {| d_path := d_path d; d_access := d_access d;
                       d_append := d_append d;
                       d_offset := if d_append d then String.length new
                                   else (d_offset d + String.length data)%nat |} in
          (None,
           with_files (<[d_path d := new]> (files w))
                      (<[fd f := d']> (open_files w)) (next_fd w) w)
      end
  end.

(** [os.Remove(name)].  The bytes of a removed file that a descriptor
    still holds open are out of reach of this model; [Logger.Close]
    closes its own descriptor before it removes the file. *)
Definition Remove (path : string) (w : World) : option error * World :=
  match files w !! path with
  | Some _ =>
      (None, with_files (delete path (files w)) (open_files w) (next_fd w) w)
  | None => (Some (PathError "remove" path "no such file or directory"), w)
  end.

End os.

(** An [io.Writer] value: nil, [os.Stdout], an open file, or a writer
    of the caller's. *)
Inductive Writer : Type :=
| NilWriter
| Stdout
| FileWriter (f : File)
| Sink (id : nat).

(** What a call does: it returns, or it panics. *)
Inductive outcome (A : Type) : Type :=
| Returns (a : A)
| Panics.
Arguments Returns {A} a.
Arguments Panics {A}.

#[global] Instance outcome_ret : MRet outcome := fun A a => Returns a.
#[global] Instance outcome_bind : MBind outcome :=
  fun A B k m => match m with Returns a => k a | Panics => Panics end.

(** [fmt.Fprint(writer, s)]: one write on the writer, whose error is
    dropped; a nil writer panics. *)
Definition Fprint (writer : Writer) (s : string) (w : World) : outcome World :=
  match writer with
  | NilWriter => Panics
  | Stdout => Returns (Print s w)
  | FileWriter f => Returns (snd (os.WriteString f s w))
  | Sink id => Returns (with_sinks (<[id := default "" (sinks w !! id) ++ s]> (sinks w)) w)
  end.

Definition Fprintf (writer : Writer) (format : string) (a : list value)
    (w : World) : outcome World :=
  Fprint writer (Sprintf format a) w.

(** ** Levels and the package-level registries *)

Definition LogLevel : Type := Z.

Definition Debug : LogLevel := 10.
Definition Info : LogLevel := 20.
Definition Hint : LogLevel := 22.
Definition Important : LogLevel := 24.
Definition Warn : LogLevel := 30.
Definition Error : LogLevel := 40.

(** The three package-level maps.  They are mutable ([AddLevel]) and
    shared by every logger that has not been given maps of its own. *)
Record Registry : Type := {
  Levels : gmap Z string;
  DefaultColorMap : gmap Z (string -> string);
  DefaultFormatterMap : gmap Z string
}.

(** The colour helpers are defined in another file of the package; the
    registry in its initial state is stated over them. *)
Record Palette : Type := {
  Yellow : string -> string;
  RedBold : string -> string;
  Cyan : string -> string;
  CyanBold : string -> string;
  YellowBold : string -> string;
  PurpleBold : string -> string
}.

Definition defaultColor : string -> string := fun s => s.

Definition initial (p : Palette) : Registry :=
  {| Levels :=
       <[Debug := "Debug"]> (<[Info := "Info"]> (<[Error := "Error"]>
       (<[Warn := "Warn"]> (<[Hint := "Hint"]> (<[Important := "Important"]> ∅)))));
     DefaultColorMap :=
       <[Debug := Yellow p]> (<[Error := RedBold p]> (<[Info := Cyan p]>
       (<[Hint := CyanBold p]> (<[Warn := YellowBold p]>
       (<[Important := PurpleBold p]> ∅)))));
     DefaultFormatterMap :=
       <[Debug := "[Debug] %s " ++ newline]>
       (<[Warn := "[Warn] %s " ++ newline]>
       (<[Error := "[Error] %s " ++ newline]>
       (<[Info := "[-] %s {{suffix}}" ++ newline]>
       (<[Hint := "[+] %s {{suffix}}" ++ newline]>
       (<[Important := "[*] %s {{suffix}}" ++ newline]> ∅))))) |}.

Module LogLevel.

Definition Name (g : Registry) (l : LogLevel) : string :=
  match Levels g !! l with
  | Some name => name
  | None => Itoa l
  end.

Definition Formatter (g : Registry) (l : LogLevel) : string :=
  match DefaultFormatterMap g !! l with
  | Some formatter => formatter
  | None => "[" ++ Name g l ++ "] %s"
  end.

Definition Color (g : Registry) (l : LogLevel) : string -> string :=
  match DefaultColorMap g !! l with
  | Some f => f
  | None => defaultColor
  end.

End LogLevel.

(** One of the [opts ...interface{}] of [AddLevel]. *)
Inductive opt : Type :=
| OptString (s : string)
| OptColor (f : string -> string)
| OptOther (v : Z).

Definition AddLevel (level : LogLevel) (name : string) (opts : list opt)
    (g : Registry) : Registry :=
  fold_left
    (fun g o =>
       match o with
       | OptString s =>
           {| Levels := Levels g; DefaultColorMap := DefaultColorMap g;
              DefaultFormatterMap := <[level := s]> (DefaultFormatterMap g) |}
       | OptColor f =>
           {| Levels := Levels g;
              DefaultColorMap := <[level := f]> (DefaultColorMap g);
              DefaultFormatterMap := DefaultFormatterMap g |}
       | OptOther _ => g
       end)
    opts
    {| Levels := <[level := name]> (Levels g);
       DefaultColorMap := DefaultColorMap g;
       DefaultFormatterMap := DefaultFormatterMap g |}.

(** ** The logger *)

(** A map value held in a [Logger] field.  Go maps are references:
    [NewLogger] stores the package-level maps themselves, so a later
    [AddLevel] is seen through the field; a nil map reads as empty. *)
Inductive stringMap : Type :=
| TheLevels
| TheDefaultFormatterMap
| StringMap (m : gmap Z string).

Inductive colorMapRef : Type :=
| TheDefaultColorMap
| ColorMap (m : gmap Z (string -> string)).

Definition strings_of (g : Registry) (r : stringMap) : gmap Z string :=
  match r with
  | TheLevels => Levels g
  | TheDefaultFormatterMap => DefaultFormatterMap g
  | StringMap m => m
  end.

Definition colors_of (g : Registry) (r : colorMapRef) : gmap Z (string -> string) :=
  match r with
  | TheDefaultColorMap => DefaultColorMap g
  | ColorMap m => m
  end.

(** [SuffixFunc] and [PrefixFunc] are Go closures; they are taken to
    read nothing but the clock, and may be nil. *)
Record Logger : Type := {
  Quiet : bool;
  Clean : bool;
  Level : LogLevel;
  Color : bool;
  LogToFile : bool;
  LogFileName : string;
  SuffixFunc : option (instant -> string);
  PrefixFunc : option (instant -> string);
  logFile : option File;
  writer : Writer;
  levels : stringMap;
  formatter : stringMap;
  colorMap : colorMapRef
}.

Definition pad (width : nat) (n : nat) : string :=
  let s := Itoa (Z.of_nat n) in
  string_of_list_ascii (repeat "0"%char (width - String.length s)) ++ s.

(** [time.Now().Format("2006-01-02 15:04.05")] *)
Definition getCurtime (t : instant) : string :=
  pad 4 (year t) ++ "-" ++ pad 2 (month t) ++ "-" ++ pad 2 (day t) ++ " "
  ++ pad 2 (hour t) ++ ":" ++ pad 2 (minute t) ++ "." ++ pad 2 (second t).

Definition NewLogger (level : LogLevel) : Logger :=
  {| Quiet := false; Clean := false;
     Level := level;
     Color := false;
     LogToFile := false;
     LogFileName := "";
     SuffixFunc := Some (fun t => ", " ++ getCurtime t);
     PrefixFunc := Some (fun _ => "");
     logFile := None;
     writer := Stdout;
     levels := TheLevels;
     formatter := TheDefaultFormatterMap;
     colorMap := TheDefaultColorMap |}.

Definition NewFileLogger (filename : string) (w : World)
  : (option Logger * option error) * World :=
  match os.OpenFile filename
          {| flag_access := O_RDWR; O_CREATE := true;
             O_APPEND := false; O_TRUNC := false |} w with
  | (inr err, w') => ((None, Some err), w')
  | (inl file, w') =>
      ((Some {| Quiet := false; Clean := false;
                Level := Warn;
                Color := false;
                LogToFile := false;
                LogFileName := "";
                SuffixFunc := Some (fun t => ", " ++ getCurtime t);
                PrefixFunc := Some (fun _ => "");
                logFile := None;
                writer := FileWriter file;
                levels := TheLevels;
                formatter := TheDefaultFormatterMap;
                colorMap := ColorMap ∅ |},
        None), w')
  end.

(** The package-level [Log]. *)
Definition Log : Logger := NewLogger Warn.

Definition set_logFile (f : option File) (log : Logger) : Logger :=
  {| Quiet := Quiet log; Clean := Clean log; Level := Level log;
     Color := Color log; LogToFile := LogToFile log;
     LogFileName := LogFileName log;
     SuffixFunc := SuffixFunc log; PrefixFunc := PrefixFunc log;
     logFile := f;
     writer := writer log; levels := levels log;
     formatter := formatter log; colorMap := colorMap log |}.

Definition set_LogToFile (l : bool) (log : Logger) : Logger :=
  {| Quiet := Quiet log; Clean := Clean log; Level := Level log;
     Color := Color log; LogToFile := l;
     LogFileName := LogFileName log;
     SuffixFunc := SuffixFunc log; PrefixFunc := PrefixFunc log;
     logFile := logFile log;
     writer := writer log; levels := levels log;
     formatter := formatter log; colorMap := colorMap log |}.

Module Logger.

Definition SetQuiet (q : bool) (log : Logger) : Logger :=
  {| Quiet := q; Clean := Clean log; Level := Level log;
     Color := Color log; LogToFile := LogToFile log;
     LogFileName := LogFileName log;
     SuffixFunc := SuffixFunc log; PrefixFunc := PrefixFunc log;
     logFile := logFile log;
     writer := writer log; levels := levels log;
     formatter := formatter log; colorMap := colorMap log |}.

Definition SetClean (c : bool) (log : Logger) : Logger :=
  {| Quiet := Quiet log; Clean := c; Level := Level log;
     Color := Color log; LogToFile := LogToFile log;
     LogFileName := LogFileName log;
     SuffixFunc := SuffixFunc log; PrefixFunc := PrefixFunc log;
     logFile := logFile log;
     writer := writer log; levels := levels log;
     formatter := formatter log; colorMap := colorMap log |}.

Definition SetColor (c : bool) (log : Logger) : Logger :=
  {| Quiet := Quiet log; Clean := Clean log; Level := Level log;
     Color := c; LogToFile := LogToFile log;
     LogFileName := LogFileName log;
     SuffixFunc := SuffixFunc log; PrefixFunc := PrefixFunc log;
     logFile := logFile log;
     writer := writer log; levels := levels log;
     formatter := formatter log; colorMap := colorMap log |}.

(** Closes the open log file, if any, and opens [LogFileName] for
    appending; on failure a line on standard output tells so and
    [logFile] is left nil. *)
Definition InitLogFile (log : Logger) (w : World) : Logger * World :=
  let '(log, w) :=
    match logFile log with
    | Some f => (set_logFile None log, os.Close f w)
    | None => (log, w)
    end in
  match os.OpenFile (LogFileName log)
          {| flag_access := O_WRONLY; O_CREATE := true;
             O_APPEND := true; O_TRUNC := false |} w with
  | (inr _, w) => (set_logFile None log, Println "Error: Set log file is error" w)
  | (inl file, w) => (set_logFile (Some file) log, w)
  end.

Definition SetIsLogToFile (l : bool) (log : Logger) (w : World)
  : Logger * World :=
  let log := set_LogToFile l log in
  if LogToFile log then InitLogFile log w
  else
    match logFile log with
    | Some f => (set_logFile None log, os.Close f w)
    | None => (log, w)
    end.

Definition SetColorMap (cm : colorMapRef) (log : Logger) : Logger :=
  {| Quiet := Quiet log; Clean := Clean log; Level := Level log;
     Color := Color log; LogToFile := LogToFile log;
     LogFileName := LogFileName log;
     SuffixFunc := SuffixFunc log; PrefixFunc := PrefixFunc log;
     logFile := logFile log;
     writer := writer log; levels := levels log;
     formatter := formatter log; colorMap := cm |}.

Definition SetLevel (l : LogLevel) (log : Logger) : Logger :=
  {| Quiet := Quiet log; Clean := Clean log; Level := l;
     Color := Color log; LogToFile := LogToFile log;
     LogFileName := LogFileName log;
     SuffixFunc := SuffixFunc log; PrefixFunc := PrefixFunc log;
     logFile := logFile log;
     writer := writer log; levels := levels log;
     formatter := formatter log; colorMap := colorMap log |}.

Definition SetOutput (wr : Writer) (log : Logger) : Logger :=
  {| Quiet := Quiet log; Clean := Clean log; Level := Level log;
     Color := Color log; LogToFile := LogToFile log;
     LogFileName := LogFileName log;
     SuffixFunc := SuffixFunc log; PrefixFunc := PrefixFunc log;
     logFile := logFile log;
     writer := wr; levels := levels log;
     formatter := formatter log; colorMap := colorMap log |}.

Definition SetFile (filename : string) (log : Logger) : Logger :=
  {| Quiet := Quiet log; Clean := Clean log; Level := Level log;
     Color := Color log; LogToFile := LogToFile log;
     LogFileName := filename;
     SuffixFunc := SuffixFunc log; PrefixFunc := PrefixFunc log;
     logFile := logFile log;
     writer := writer log; levels := levels log;
     formatter := formatter log; colorMap := colorMap log |}.

Definition SetFormatter (fm : stringMap) (log : Logger) : Logger :=
  {| Quiet := Quiet log; Clean := Clean log; Level := Level log;
     Color := Color log; LogToFile := LogToFile log;
     LogFileName := LogFileName log;
     SuffixFunc := SuffixFunc log; PrefixFunc := PrefixFunc log;
     logFile := logFile log;
     writer := writer log; levels := levels log;
     formatter := fm; colorMap := colorMap log |}.

Definition Console (s : string) (log : Logger) (w : World) : outcome World :=
  if negb (Clean log) then Fprint (writer log) s w else Returns w.

Definition Consolef (format : string) (s : list value) (log : Logger)
    (w : World) : outcome World :=
  if negb (Clean log) then Fprintf (writer log) format s w else Returns w.

Definition FConsolef (wr : Writer) (format : string) (s : list value)
    (log : Logger) (w : World) : outcome World :=
  if negb (Clean log) then Fprintf wr format s w else Returns w.

Definition SetLevelColor (g : Registry) (log : Logger) (level : LogLevel)
    (line : string) : string :=
  match colors_of g (colorMap log) !! level with
  | Some c => c line
  | None =>
      match DefaultColorMap g !! level with
      | Some c => c line
      | None => line
      end
  end.

(** The two producers are called whether or not their token occurs in
    the line; calling a nil one panics. *)
Definition Format (g : Registry) (log : Logger) (level : LogLevel)
    (s : list value) (w : World) : outcome string :=
  let line :=
    match strings_of g (formatter log) !! level with
    | Some f => Sprintf f s
    | None =>
        match DefaultFormatterMap g !! level with
        | Some f => Sprintf f s
        | None => Sprintf "[%s] %s " (VString (LogLevel.Name g level) :: s)
        end
    end in
  match SuffixFunc log with
  | None => Panics
  | Some suffix =>
      let line := Replace line "{{suffix}}" (suffix (clock w)) in
      match PrefixFunc log with
      | None => Panics
      | Some prefix => Returns (Replace line "{{prefix}}" (prefix (clock w)))
      end
  end.

Definition writeToFile (log : Logger) (line : string) (w : World) : World :=
  match logFile log with
  | None => Println "Error: Log file is not initialized." w
  | Some f =>
      match os.WriteString f line w with
      | (Some err, w) =>
          Print (Sprintf ("Error writing to logfile: %s" ++ newline)
                         [VString (errorString err)]) w
      | (None, w) => w
      end
  end.

Definition logInterface (g : Registry) (log : Logger) (wr : Writer)
    (level : LogLevel) (s : value) (w : World) : outcome World :=
  if negb (Quiet log) && (Level log <=? level) then
    line ← Format g log level [s] w;
    w ← (if Color log then Fprint wr (SetLevelColor g log level line) w
         else Fprint wr line w);
    if LogToFile log then Returns (writeToFile log line w) else Returns w
  else Returns w.

Definition logInterfacef (g : Registry) (log : Logger) (wr : Writer)
    (level : LogLevel) (format : string) (s : list value) (w : World)
  : outcome World :=
  if negb (Quiet log) && (Level log <=? level) then
    line ← Format g log level [VString (Sprintf format s)] w;
    w ← (if Color log then Fprint wr (SetLevelColor g log level line) w
         else Fprint wr line w);
    if LogToFile log then Returns (writeToFile log line w) else Returns w
  else Returns w.

(** Inside this module a level-named method hides the level constant
    of the same name, so each of them comes after its [f] and [F]
    variants. *)

Definition Log (g : Registry) (log : Logger) (level : LogLevel) (s : value)
    (w : World) : outcome World :=
  logInterface g log (writer log) level s w.

Definition Logf (g : Registry) (log : Logger) (level : LogLevel)
    (format : string) (s : list value) (w : World) : outcome World :=
  logInterfacef g log (writer log) level format s w.

Definition FLogf (g : Registry) (log : Logger) (wr : Writer)
    (level : LogLevel) (s : list value) (w : World) : outcome World :=
  logInterface g log wr level (VString (Sprintln s)) w.

Definition Importantf (g : Registry) (log : Logger) (format : string)
    (s : list value) (w : World) : outcome World :=
  logInterfacef g log (writer log) Important format s w.

Definition FImportantf (g : Registry) (log : Logger) (wr : Writer)
    (format : string) (s : list value) (w : World) : outcome World :=
  logInterfacef g log wr Important format s w.

Definition Important (g : Registry) (log : Logger) (s : value) (w : World)
  : outcome World :=
  logInterface g log (writer log) Important s w.

Definition Infof (g : Registry) (log : Logger) (format : string)
    (s : list value) (w : World) : outcome World :=
  logInterfacef g log (writer log) Info format s w.

Definition FInfof (g : Registry) (log : Logger) (wr : Writer)
    (format : string) (s : list value) (w : World) : outcome World :=
  logInterfacef g log wr Info format s w.

Definition Info (g : Registry) (log : Logger) (s : value) (w : World)
  : outcome World :=
  logInterface g log (writer log) Info s w.

Definition Hintf (g : Registry) (log : Logger) (format : string)
    (s : list value) (w : World) : outcome World :=
  logInterfacef g log (writer log) Hint format s w.

Definition Hint (g : Registry) (log : Logger) (s : value) (w : World)
  : outcome World :=
  logInterface g log (writer log) Hint s w.

Definition Errorf (g : Registry) (log : Logger) (format : string)
    (s : list value) (w : World) : outcome World :=
  logInterfacef g log (writer log) Error format s w.

Definition FErrorf (g : Registry) (log : Logger) (wr : Writer)
    (format : string) (s : list value) (w : World) : outcome World :=
  logInterfacef g log wr Error format s w.

Definition Error (g : Registry) (log : Logger) (s : value) (w : World)
  : outcome World :=
  logInterface g log (writer log) Error s w.

Definition Warnf (g : Registry) (log : Logger) (format : string)
    (s : list value) (w : World) : outcome World :=
  logInterfacef g log (writer log) Warn format s w.

Definition FWarnf (g : Registry) (log : Logger) (wr : Writer)
    (format : string) (s : list value) (w : World) : outcome World :=
  logInterfacef g log wr Warn format s w.

Definition Warn (g : Registry) (log : Logger) (s : value) (w : World)
  : outcome World :=
  logInterface g log (writer log) Warn s w.

Definition Debugf (g : Registry) (log : Logger) (format : string)
    (s : list value) (w : World) : outcome World :=
  logInterfacef g log (writer log) Debug format s w.

Definition FDebugf (g : Registry) (log : Logger) (wr : Writer)
    (format : string) (s : list value) (w : World) : outcome World :=
  logInterfacef g log wr Debug format s w.

Definition Debug (g : Registry) (log : Logger) (s : value) (w : World)
  : outcome World :=
  logInterface g log (writer log) Debug s w.

(** [Close(remove)].  The text of a removal error is handed to
    [fmt.Printf] as its format string. *)
Definition Close (remove : bool) (log : Logger) (w : World) : Logger * World :=
  let '(log, w) :=
    match logFile log with
    | Some f => (set_logFile None log, os.Close f w)
    | None => (log, w)
    end in
  if remove then
    match os.Remove (LogFileName log) w with
    | (Some err, w) =>
        (log, Print (Sprintf ("Error removing logfile: " ++ errorString err) []) w)
    | (None, w) => (log, w)
    end
  else (log, w).

End Logger.

(** The leveled logging calls, as data: which method, with which
    arguments. *)
Inductive call : Type :=
| CallLog (level : LogLevel) (s : value)
| CallLogf (level : LogLevel) (format : string) (s : list value)
| CallFLogf (wr : Writer) (level : LogLevel) (s : list value)
| CallImportant (s : value)
| CallImportantf (format : string) (s : list value)
| CallFImportantf (wr : Writer) (format : string) (s : list value)
| CallInfo (s : value)
| CallInfof (format : string) (s : list value)
| CallHint (s : value)
| CallHintf (format : string) (s : list value)
| CallFInfof (wr : Writer) (format : string) (s : list value)
| CallError (s : value)
| CallErrorf (format : string) (s : list value)
| CallFErrorf (wr : Writer) (format : string) (s : list value)
| CallWarn (s : value)
| CallWarnf (format : string) (s : list value)
| CallFWarnf (wr : Writer) (format : string) (s : list value)
| CallDebug (s : value)
| CallDebugf (format : string) (s : list value)
| CallFDebugf (wr : Writer) (format : string) (s : list value).

Definition run (g : Registry) (log : Logger) (c : call) (w : World)
  : outcome World :=
  match c with
  | CallLog level s => Logger.Log g log level s w
  | CallLogf level format s => Logger.Logf g log level format s w
  | CallFLogf wr level s => Logger.FLogf g log wr level s w
  | CallImportant s => Logger.Important g log s w
  | CallImportantf format s => Logger.Importantf g log format s w
  | CallFImportantf wr format s => Logger.FImportantf g log wr format s w
  | CallInfo s => Logger.Info g log s w
  | CallInfof format s => Logger.Infof g log format s w
  | CallHint s => Logger.Hint g log s w
  | CallHintf format s => Logger.Hintf g log format s w
  | CallFInfof wr format s => Logger.FInfof g log wr format s w
  | CallError s => Logger.Error g log s w
  | CallErrorf format s => Logger.Errorf g log format s w
  | CallFErrorf wr format s => Logger.FErrorf g log wr format s w
  | CallWarn s => Logger.Warn g log s w
  | CallWarnf format s => Logger.Warnf g log format s w
  | CallFWarnf wr format s => Logger.FWarnf g log wr format s w
  | CallDebug s => Logger.Debug g log s w
  | CallDebugf format s => Logger.Debugf g log format s w
  | CallFDebugf wr format s => Logger.FDebugf g log wr format s w
  end.

(** The level a call logs at, its target writer and the operand it
    hands to [Format]. *)
Definition level_of (c : call) : LogLevel :=
  match c with
  | CallLog level _ | CallLogf level _ _ | CallFLogf _ level _ => level
  | CallImportant _ | CallImportantf _ _ | CallFImportantf _ _ _ => Important
  | CallInfo _ | CallInfof _ _ | CallFInfof _ _ _ => Info
  | CallHint _ | CallHintf _ _ => Hint
  | CallError _ | CallErrorf _ _ | CallFErrorf _ _ _ => Error
  | CallWarn _ | CallWarnf _ _ | CallFWarnf _ _ _ => Warn
  | CallDebug _ | CallDebugf _ _ | CallFDebugf _ _ _ => Debug
  end.

Definition target_of (log : Logger) (c : call) : Writer :=
  match c with
  | CallFLogf wr _ _ | CallFImportantf wr _ _ | CallFInfof wr _ _
  | CallFErrorf wr _ _ | CallFWarnf wr _ _ | CallFDebugf wr _ _ => wr
  | _ => writer log
  end.

Definition message_of (c : call) : value :=
  match c with
  | CallLog _ s | CallImportant s | CallInfo s | CallHint s
  | CallError s | CallWarn s | CallDebug s => s
  | CallFLogf _ _ s => VString (Sprintln s)
  | CallLogf _ format s | CallImportantf format s
  | CallFImportantf _ format s | CallInfof format s | CallHintf format s
  | CallFInfof _ format s | CallErrorf format s | CallFErrorf _ format s
  | CallWarnf format s | CallFWarnf _ format s | CallDebugf format s
  | CallFDebugf _ format s => VString (Sprintf format s)
  end.

(** ** Notions used to state the properties *)

Fixpoint percent_free (s : string) : bool :=
  match s with
  | EmptyString => true
  | String c t => negb (Ascii.eqb c "%") && percent_free t
  end.

(** The format string registered for a level, as [Format] looks it up:
    the logger's own map first, then the package-level one. *)
Definition template_of (g : Registry) (log : Logger) (level : LogLevel)
  : option string :=
  match strings_of g (formatter log) !! level with
  | Some f => Some f
  | None => DefaultFormatterMap g !! level
  end.

(** The line as [Format] has it before the tokens are replaced. *)
Definition raw_line (g : Registry) (log : Logger) (level : LogLevel)
    (s : list value) : string :=
  match template_of g log level with
  | Some f => Sprintf f s
  | None => Sprintf "[%s] %s " (VString (LogLevel.Name g level) :: s)
  end.

(** The two token replacements of [Format], in its order. *)
Definition substitute (suffix prefix line : string) : string :=
  Replace (Replace line "{{suffix}}" suffix) "{{prefix}}" prefix.

(** The colour function of a level in the words of the specification:
    the instance's override, else the global default, else the
    identity. *)
Definition resolved_color (g : Registry) (log : Logger) (level : LogLevel)
  : string -> string :=
  match colors_of g (colorMap log) !! level with
  | Some override => override
  | None =>
      match DefaultColorMap g !! level with
      | Some default_color => default_color
      | None => fun line => line
      end
  end.

(** What a leveled call does once it is past the guard and [Format] has
    returned [line]: one write on the target writer, then the file. *)
Definition emission (g : Registry) (log : Logger) (wr : Writer)
    (level : LogLevel) (line : string) (w : World) : outcome World :=
  w ← Fprint wr (if Color log then Logger.SetLevelColor g log level line
                 else line) w;
  Returns (if LogToFile log then Logger.writeToFile log line w else w).

(** The fields of [Logger], to say which ones a setter leaves alone. *)
Inductive field : Type :=
| FQuiet | FClean | FLevel | FColor | FLogToFile | FLogFileName
| FSuffixFunc | FPrefixFunc | FlogFile | Fwriter | Flevels | Fformatter
| FcolorMap.

Definition same_at (f : field) (a b : Logger) : Prop :=
  match f with
  | FQuiet => Quiet a = Quiet b
  | FClean => Clean a = Clean b
  | FLevel => Level a = Level b
  | FColor => Color a = Color b
  | FLogToFile => LogToFile a = LogToFile b
  | FLogFileName => LogFileName a = LogFileName b
  | FSuffixFunc => SuffixFunc a = SuffixFunc b
  | FPrefixFunc => PrefixFunc a = PrefixFunc b
  | FlogFile => logFile a = logFile b
  | Fwriter => writer a = writer b
  | Flevels => levels a = levels b
  | Fformatter => formatter a = formatter b
  | FcolorMap => colorMap a = colorMap b
  end.

(** [only_changes fs a b]: [b] is [a] outside the fields [fs]. *)
Definition only_changes (fs : list field) (a b : Logger) : Prop :=
  forall f, ~ In f fs -> same_at f a b.

(** The world once the log file of [log], if one is open, is closed. *)
Definition released (log : Logger) (w : World) : World :=
  match logFile log with
  | Some f => os.Close f w
  | None => w
  end.

(** A format string whose directives are all among [%s], [%v], [%d]
    and [%%] (a lone [%] at the very end included): the format strings
    on which [Sprintf] above is [fmt.Sprintf]. *)
Fixpoint plain_verbs (f : string) : bool :=
  match f with
  | EmptyString => true
  | String c rest =>
      if Ascii.eqb c "%" then
        match rest with
        | EmptyString => true
        | String verb rest' =>
            (Ascii.eqb verb "s" || Ascii.eqb verb "v" || Ascii.eqb verb "d"
             || Ascii.eqb verb "%")
            && plain_verbs rest'
        end
      else plain_verbs rest
  end.

(** [template l0 [l1; ...; lk]] is the format string
    [l0 %s l1 %s ... %s lk], with [k] placeholders; [missing [l2; ...]]
    is what [fmt] makes of the part after [l1] when no operand is
    left. *)
Fixpoint template (first : string) (rest : list string) : string :=
  match rest with
  | nil => first
  | l :: rest' => first ++ "%s" ++ template l rest'
  end.

Fixpoint missing (rest : list string) : string :=
  match rest with
  | nil => ""
  | l :: rest' => "%!s(MISSING)" ++ l ++ missing rest'
  end.

(** ** Notions used to state further properties *)

(** The last format string and the last colour function among the
    options of an [AddLevel] call. *)
Fixpoint last_string (opts : list opt) : option string :=
  match opts with
  | nil => None
  | o :: rest =>
      match last_string rest with
      | Some s => Some s
      | None => match o with OptString s => Some s | _ => None end
      end
  end.

Fixpoint last_color (opts : list opt) : option (string -> string) :=
  match opts with
  | nil => None
  | o :: rest =>
      match last_color rest with
      | Some f => Some f
      | None => match o with OptColor f => Some f | _ => None end
      end
  end.

(** [occurs old s]: [old] occurs somewhere in [s]. *)
Definition occurs (old s : string) : bool :=
  existsb (String.prefix old) (tails s).

Fixpoint brace_free (s : string) : bool :=
  match s with
  | EmptyString => true
  | String c t => negb (Ascii.eqb c "{") && brace_free t
  end.

(** A call of one of the eight plain setters. *)
Inductive setting : Type :=
| SetQuiet (q : bool)
| SetClean (c : bool)
| SetColor (c : bool)
| SetColorMap (cm : colorMapRef)
| SetLevel (l : LogLevel)
| SetOutput (wr : Writer)
| SetFile (filename : string)
| SetFormatter (fm : stringMap).

Definition set (x : setting) (log : Logger) : Logger :=
  match x with
  | SetQuiet q => Logger.SetQuiet q log
  | SetClean c => Logger.SetClean c log
  | SetColor c => Logger.SetColor c log
  | SetColorMap cm => Logger.SetColorMap cm log
  | SetLevel l => Logger.SetLevel l log
  | SetOutput wr => Logger.SetOutput wr log
  | SetFile filename => Logger.SetFile filename log
  | SetFormatter fm => Logger.SetFormatter fm log
  end.

Definition field_of (x : setting) : field :=
  match x with
  | SetQuiet _ => FQuiet
  | SetClean _ => FClean
  | SetColor _ => FColor
  | SetColorMap _ => FcolorMap
  | SetLevel _ => FLevel
  | SetOutput _ => Fwriter
  | SetFile _ => FLogFileName
  | SetFormatter _ => Fformatter
  end.

(** The log file handle of [log], when there is one, is an open
    descriptor in the mode [InitLogFile] opens it in. *)
Definition log_file_ready (log : Logger) (w : World) : Prop :=
  match logFile log with
  | None => True
  | Some f =>
      exists off,
        open_files w !! fd f
        = Some {| d_path := name f; d_access := O_WRONLY;
                  d_append := true; d_offset := off |}
  end.

(** The methods of a logger, as data, and what one of them does to the
    logger and its environment. *)
Inductive method : Type :=
| Setter (x : setting)
| MSetIsLogToFile (l : bool)
| MInitLogFile
| MClose (remove : bool)
| MConsole (s : string)
| MConsolef (format : string) (a : list value)
| MFConsolef (wr : Writer) (format : string) (a : list value)
| Leveled (g : Registry) (c : call).

Definition invoke (m : method) (log : Logger) (w : World)
  : outcome (Logger * World) :=
  match m with
  | Setter x => Returns (set x log, w)
  | MSetIsLogToFile l => Returns (Logger.SetIsLogToFile l log w)
  | MInitLogFile => Returns (Logger.InitLogFile log w)
  | MClose remove => Returns (Logger.Close remove log w)
  | MConsole s => w ← Logger.Console s log w; Returns (log, w)
  | MConsolef format a => w ← Logger.Consolef format a log w; Returns (log, w)
  | MFConsolef wr format a =>
      w ← Logger.FConsolef wr format a log w; Returns (log, w)
  | Leveled g c => w ← run g log c w; Returns (log, w)
  end.

Fixpoint invoke_all (ms : list method) (log : Logger) (w : World)
  : outcome (Logger * World) :=
  match ms with
  | nil => Returns (log, w)
  | m :: rest =>
      '(log, w) ← invoke m log w; invoke_all rest log w
  end.

(** The writers that are not files: standard output and the writers
    of the caller's. *)
Definition not_a_file (wr : Writer) : bool :=
  match wr with
  | Stdout | Sink _ => true
  | NilWriter | FileWriter _ => false
  end.

Definition is_digit (c : ascii) : bool :=
  (48 <=? nat_of_ascii c)%nat && (nat_of_ascii c <=? 57)%nat.

(** [fits layout s]: [s] is [layout] with a digit for every "0". *)
Fixpoint fits (layout s : string) : bool :=
  match layout, s with
  | EmptyString, EmptyString => true
  | String l layout', String c s' =>
      (if Ascii.eqb l "0" then is_digit c else Ascii.eqb l c)
      && fits layout' s'
  | _, _ => false
  end.

(** Civil time as a clock shows it. *)
Definition on_the_clock (t : instant) : bool :=
  (Z.of_nat (year t) <? 10000) && (Z.of_nat (month t) <? 100)
  && (Z.of_nat (day t) <? 100) && (Z.of_nat (hour t) <? 100)
  && (Z.of_nat (minute t) <? 100) && (Z.of_nat (second t) <? 100).

(** ** Sample data for the examples *)

(** A palette that tags the text with the name of the helper. *)
Definition tags : Palette :=
  {| Yellow := fun s => "<Yellow>" ++ s;
     RedBold := fun s => "<RedBold>" ++ s;
     Cyan := fun s => "<Cyan>" ++ s;
     CyanBold := fun s => "<CyanBold>" ++ s;
     YellowBold := fun s => "<YellowBold>" ++ s;
     PurpleBold := fun s => "<PurpleBold>" ++ s |}.

Definition morning : instant :=
  {| year := 2024; month := 3; day := 9; hour := 7; minute := 5; second := 1 |}.

(** A world with no file and nothing written yet, where the directory
    of [/nowhere/app.log] does not exist. *)
Definition fresh_world : World :=
  {| clock := morning; files := ∅; unopenable := {["/nowhere/app.log"]};
     open_files := ∅; next_fd := 3; stdout := ""; sinks := ∅ |}.

(** The package-level logger, writing to a writer of the caller's, with
    [Clean] set. *)
Definition clean_logger : Logger :=
  Logger.SetClean true (Logger.SetOutput (Sink 0) Log).

(** The package-level logger with colours on, writing to a writer of
    the caller's and to the log file [app.log]. *)
Definition color_logger_and_world : Logger * World :=
  Logger.SetIsLogToFile true
    (Logger.SetFile "app.log"
       (Logger.SetColor true (Logger.SetOutput (Sink 0) Log)))
    fresh_world.

(** The registry after [AddLevel(1, "test")], as in the package's test. *)
Definition test_registry : Registry := AddLevel 1 "test" [] (initial tags).

(** A logger whose suffix producer emits the prefix token and whose
    prefix producer emits the suffix token, with a formatter for [Info]
    that carries both tokens. *)
Definition crossed_logger : Logger :=
  {| Quiet := false; Clean := false; Level := Debug; Color := false;
     LogToFile := false; LogFileName := "";
     SuffixFunc := Some (fun _ => "<{{prefix}}>");
     PrefixFunc := Some (fun _ => "({{suffix}})");
     logFile := None; writer := Stdout; levels := TheLevels;
     formatter := StringMap {[ Info := "{{prefix}} %s {{suffix}}" ]};
     colorMap := TheDefaultColorMap |}.

(** A logger with a formatter for [Warn] whose verbs do not fit one
    string operand. *)
Definition mismatched_logger : Logger :=
  Logger.SetFormatter (StringMap {[ Warn := "%d and %s" ]}) Log.

(** The package-level logger told to log to a file whose directory
    does not exist. *)
Definition lost_logger : Logger := Logger.SetFile "/nowhere/app.log" Log.

Definition lost_state : Logger * World :=
  Logger.SetIsLogToFile true lost_logger fresh_world.

(** A world in which [app.log] already holds 26 bytes, and the logger
    that [NewFileLogger] makes of that file. *)
Definition used_world : World :=
  {| clock := morning;
     files := {[ "app.log" := "0123456789ABCDEFGHIJKLMNOP" ]};
     unopenable := ∅; open_files := ∅; next_fd := 3; stdout := "";
     sinks := ∅ |}.

Definition file_logger : Logger :=
  match fst (fst (NewFileLogger "app.log" used_world)) with
  | Some log => log
  | None => Log
  end.

(** * Lemmas on byte strings and on [Replace] *)

Lemma append_cons (c : ascii) (a b : string) :
  String c a ++ b = String c (a ++ b).
Proof. reflexivity. Qed.

Lemma length_append (a b : string) :
  String.length (a ++ b) = (String.length a + String.length b)%nat.
Proof.
  induction a as [|c a IH]; [reflexivity |].
  rewrite append_cons. simpl. now rewrite IH.
Qed.

Lemma append_assoc (a b c : string) : (a ++ b) ++ c = a ++ b ++ c.
Proof.
  induction a as [|x a IH]; [reflexivity |].
  rewrite !append_cons. now rewrite IH.
Qed.

Lemma append_empty_r (a : string) : a ++ "" = a.
Proof.
  induction a as [|x a IH]; [reflexivity |].
  rewrite append_cons. now rewrite IH.
Qed.

Lemma prefix_cons (c d : ascii) (a b : string) :
  String.prefix (String c a) (String d b) = true <->
  c = d /\ String.prefix a b = true.
Proof.
  simpl. destruct (ascii_dec c d) as [->|Hne].
  - split; [intros H; split; [reflexivity | exact H] | intros [_ H]; exact H].
  - split; [discriminate | intros [H _]; contradiction].
Qed.

Lemma prefix_append (a r : string) : String.prefix a (a ++ r) = true.
Proof.
  induction a as [|c a IH].
  - now destruct r.
  - rewrite append_cons. apply prefix_cons. split; [reflexivity | exact IH].
Qed.

Lemma prefix_inv (a b : string) :
  String.prefix a b = true -> exists r, b = a ++ r.
Proof.
  revert b. induction a as [|c a IH]; intros b H.
  - exists b. reflexivity.
  - destruct b as [|d b]; [discriminate |].
    apply prefix_cons in H as [-> H].
    destruct (IH _ H) as [r ->]. exists r. reflexivity.
Qed.

Lemma prefix_weaken (a b c : string) :
  String.prefix a b = true -> String.prefix a (b ++ c) = true.
Proof.
  intros H. destruct (prefix_inv _ _ H) as [r ->].
  rewrite append_assoc. apply prefix_append.
Qed.

(** A prefix of [b ++ c] lies within [b], or covers [b] and goes on
    into [c]. *)
Lemma prefix_append_cases (a b c : string) :
  String.prefix a (b ++ c) = true ->
  String.prefix a b = true \/
  exists p, a = b ++ p /\ String.prefix p c = true.
Proof.
  revert b. induction a as [|x a IH]; intros b H.
  - left. now destruct b.
  - destruct b as [|y b].
    + right. exists (String x a). split; [reflexivity | exact H].
    + rewrite append_cons in H.
      apply prefix_cons in H as [-> H].
      destruct (IH _ H) as [Hl | [p [-> Hp]]].
      * left. apply prefix_cons. split; [reflexivity | exact Hl].
      * right. exists p. split; [reflexivity | exact Hp].
Qed.

Lemma skip_append (a r : string) : skip (String.length a) (a ++ r) = r.
Proof.
  induction a as [|c a IH]; [now destruct r |].
  rewrite append_cons. exact IH.
Qed.

Lemma in_tails (x p : string) : p <> "" -> In p (tails (x ++ p)).
Proof.
  intros Hp. induction x as [|c x IH].
  - destruct p; [contradiction | left; reflexivity].
  - rewrite append_cons. right. exact IH.
Qed.

Section ReplaceFacts.

Variables old new : string.
Hypothesis old_nonempty : old <> "".

(** Fuel beyond the length of the text changes nothing. *)
Lemma replace_loop_fuel :
  forall n m s,
    (String.length s <= n)%nat -> (String.length s <= m)%nat ->
    replace_loop n old new s = replace_loop m old new s.
Proof.
  pose proof old_nonempty as Hne.
  intros n. induction n as [|n IH]; intros m s Hn Hm.
  - destruct s; [| simpl in Hn; lia]. now destruct m.
  - destruct m as [|m].
    + destruct s; [reflexivity | simpl in Hm; lia].
    + destruct s as [|c t]; [reflexivity |].
      cbn [replace_loop].
      destruct (String.prefix old (String c t)) eqn:Hp.
      * f_equal. destruct (prefix_inv _ _ Hp) as [r Hr]. rewrite Hr.
        rewrite skip_append.
        assert (String.length r < String.length (String c t))%nat.
        { rewrite Hr, length_append. destruct old; [contradiction | simpl; lia]. }
        simpl in *. apply IH; lia.
      * f_equal. simpl in *. apply IH; lia.
Qed.

Lemma replace_all_empty : replace_all old new "" = "".
Proof. reflexivity. Qed.

Lemma replace_all_hit (r : string) :
  replace_all old new (old ++ r) = new ++ replace_all old new r.
Proof.
  pose proof old_nonempty as Hne. unfold replace_all.
  assert (Hlen : String.length (old ++ r)
                 = S (Nat.pred (String.length old) + String.length r)).
  { rewrite length_append. destruct old; [contradiction | simpl; lia]. }
  rewrite Hlen. cbn [replace_loop].
  assert (Hcons : exists c t, old ++ r = String c t).
  { destruct old as [|c t]; [contradiction |]. exists c, (t ++ r). reflexivity. }
  destruct Hcons as (c & t & Hcons). rewrite Hcons, <- Hcons.
  rewrite prefix_append, skip_append. f_equal.
  apply replace_loop_fuel; lia.
Qed.

Lemma replace_all_miss (c : ascii) (t : string) :
  String.prefix old (String c t) = false ->
  replace_all old new (String c t) = String c (replace_all old new t).
Proof.
  intros Hp. unfold replace_all. cbn [String.length replace_loop].
  now rewrite Hp.
Qed.

(** The scan around a marker [t] that no occurrence of [old] can
    overlap: what is left and right of [t] is rewritten on its own. *)
Lemma replace_all_around (t r : string) :
  clear_of old t = true ->
  (forall y, replace_all old new (t ++ y) = r ++ replace_all old new y) ->
  forall x y,
    replace_all old new (x ++ t ++ y)
    = replace_all old new x ++ r ++ replace_all old new y.
Proof.
  pose proof old_nonempty as Hne.
  intros Hclear Hhead x.
  remember (String.length x) as n eqn:Hn. revert x Hn.
  induction n as [n IH] using lt_wf_ind. intros x Hn y.
  destruct x as [|c x].
  - simpl. apply Hhead.
  - destruct (String.prefix old (String c x ++ t ++ y)) eqn:Hp.
    + apply prefix_append_cases in Hp as [Hl | [p [Hold Hp]]].
      * destruct (prefix_inv _ _ Hl) as [x' Hx']. rewrite Hx'.
        rewrite append_assoc, !replace_all_hit, append_assoc.
        f_equal. apply (IH (String.length x')); [| reflexivity].
        rewrite Hn, Hx', length_append.
        destruct old; [contradiction | simpl; lia].
      * destruct p as [|d p].
        -- rewrite append_empty_r in Hold. rewrite <- Hold.
           assert (Hself : replace_all old new old = new).
           { rewrite <- (append_empty_r old) at 2.
             rewrite replace_all_hit, replace_all_empty. apply append_empty_r. }
           rewrite Hself, replace_all_hit, Hhead. reflexivity.
        -- exfalso. unfold clear_of in Hclear.
           rewrite forallb_forall in Hclear.
           assert (Hin : In (String d p) (tails (skip 1 old))).
           { rewrite Hold.
             change (skip 1 (String c x ++ String d p)) with (x ++ String d p).
             apply in_tails. discriminate. }
           apply Hclear in Hin. apply andb_prop in Hin as [H1 H2].
           apply negb_true_iff in H1, H2.
           apply prefix_append_cases in Hp as [Hq | [q [Hq _]]].
           ++ congruence.
           ++ rewrite Hq, prefix_append in H2. discriminate.
    + change (String c x ++ t ++ y) with (String c (x ++ t ++ y)) in *.
      rewrite replace_all_miss by exact Hp.
      rewrite replace_all_miss.
      * rewrite append_cons. f_equal.
        apply (IH (String.length x)); [| reflexivity].
        rewrite Hn. simpl. lia.
      * destruct (String.prefix old (String c x)) eqn:Hq; [| reflexivity].
        apply (prefix_weaken _ _ (t ++ y)) in Hq.
        rewrite append_cons in Hq. congruence.
Qed.

Lemma replace_all_same :
  borderless old = true ->
  forall x y,
    replace_all old new (x ++ old ++ y)
    = replace_all old new x ++ new ++ replace_all old new y.
Proof.
  intros Hb. apply replace_all_around; [exact Hb |].
  intros y. apply replace_all_hit.
Qed.

Lemma replace_all_other (t : string) :
  apart old t = true ->
  forall x y,
    replace_all old new (x ++ t ++ y)
    = replace_all old new x ++ t ++ replace_all old new y.
Proof.
  intros Ha. unfold apart in Ha. apply andb_prop in Ha as [Hc Ht].
  apply replace_all_around; [exact Hc |].
  rewrite forallb_forall in Ht.
  clear Hc. induction t as [|c t IH]; intros y; [reflexivity |].
  change (String c t ++ y) with (String c (t ++ y)).
  rewrite replace_all_miss.
  - rewrite append_cons. f_equal.
    apply IH. intros q Hq. apply Ht. simpl. right. exact Hq.
  - destruct (String.prefix old (String c (t ++ y))) eqn:Hp; [| reflexivity].
    exfalso. specialize (Ht (String c t) ltac:(simpl; left; reflexivity)).
    apply andb_prop in Ht as [H1 H2]. apply negb_true_iff in H1, H2.
    change (String c (t ++ y)) with (String c t ++ y) in Hp.
    apply prefix_append_cases in Hp as [Hq | [q [Hq _]]].
    + congruence.
    + rewrite Hq, prefix_append in H2. discriminate.
Qed.

End ReplaceFacts.

(** ** The two tokens *)

Lemma Replace_replace_all (s old new : string) :
  old <> "" -> Replace s old new = replace_all old new s.
Proof. intros Hne. destruct old; [contradiction | reflexivity]. Qed.

(** Replacing a token rewrites the text on either side of an occurrence
    separately. *)
Lemma Replace_suffix_split (new x y : string) :
  Replace (x ++ "{{suffix}}" ++ y) "{{suffix}}" new
  = Replace x "{{suffix}}" new ++ new ++ Replace y "{{suffix}}" new.
Proof.
  rewrite !Replace_replace_all by discriminate.
  apply replace_all_same; [discriminate | reflexivity].
Qed.

Lemma Replace_prefix_split (new x y : string) :
  Replace (x ++ "{{prefix}}" ++ y) "{{prefix}}" new
  = Replace x "{{prefix}}" new ++ new ++ Replace y "{{prefix}}" new.
Proof.
  rewrite !Replace_replace_all by discriminate.
  apply replace_all_same; [discriminate | reflexivity].
Qed.

(** Replacing the suffix token leaves an occurrence of the prefix token
    where it is. *)
Lemma Replace_suffix_keeps_prefix (new x y : string) :
  Replace (x ++ "{{prefix}}" ++ y) "{{suffix}}" new
  = Replace x "{{suffix}}" new ++ "{{prefix}}" ++ Replace y "{{suffix}}" new.
Proof.
  rewrite !Replace_replace_all by discriminate.
  apply replace_all_other; [discriminate | reflexivity].
Qed.

Lemma substitute_suffix_inside (sfx pfx x y : string) :
  substitute sfx pfx (x ++ "{{suffix}}" ++ y)
  = Replace (Replace x "{{suffix}}" sfx ++ sfx ++ Replace y "{{suffix}}" sfx)
            "{{prefix}}" pfx.
Proof. unfold substitute. now rewrite Replace_suffix_split. Qed.

Lemma substitute_prefix_inside (sfx pfx x y : string) :
  substitute sfx pfx (x ++ "{{prefix}}" ++ y)
  = substitute sfx pfx x ++ pfx ++ substitute sfx pfx y.
Proof.
  unfold substitute.
  now rewrite Replace_suffix_keeps_prefix, Replace_prefix_split.
Qed.

Lemma regroup (t a tok b r : string) :
  t ++ (a ++ tok ++ b) ++ r = (t ++ a) ++ tok ++ (b ++ r).
Proof. now rewrite !append_assoc. Qed.

Lemma Replace_prefix_around (new u a b v : string) :
  Replace (u ++ (a ++ "{{prefix}}" ++ b) ++ v) "{{prefix}}" new
  = Replace (u ++ a) "{{prefix}}" new ++ new
    ++ Replace (b ++ v) "{{prefix}}" new.
Proof. rewrite regroup. apply Replace_prefix_split. Qed.

(** ** [Sprintf] on a template with one [%s] *)

Lemma Sprintf_literal (t rest : string) (a : list value) :
  percent_free t = true ->
  Sprintf (t ++ rest) a = t ++ Sprintf rest a.
Proof.
  intros Hfree. induction t as [|c t IH]; [reflexivity |].
  simpl in Hfree. apply andb_prop in Hfree as [Hc Ht].
  apply negb_true_iff in Hc.
  rewrite !append_cons. cbn [Sprintf]. rewrite Hc. now rewrite IH.
Qed.

Lemma Sprintf_message (t1 t2 m : string) (a : list value) :
  percent_free t1 = true ->
  Sprintf (t1 ++ "%s" ++ t2) (VString m :: a) = t1 ++ m ++ Sprintf t2 a.
Proof.
  intros Hfree. rewrite Sprintf_literal by exact Hfree. reflexivity.
Qed.

Lemma Sprintf_plain (t : string) :
  percent_free t = true -> Sprintf t [] = t.
Proof.
  intros H. rewrite <- (append_empty_r t) at 1.
  rewrite Sprintf_literal by exact H. apply append_empty_r.
Qed.

Lemma Sprintf_one_message (t1 t2 m : string) :
  percent_free t1 = true -> percent_free t2 = true ->
  Sprintf (t1 ++ "%s" ++ t2) [VString m] = t1 ++ m ++ t2.
Proof.
  intros H1 H2. rewrite Sprintf_message by exact H1.
  now rewrite Sprintf_plain.
Qed.

Lemma Sprintf_no_placeholder (f m : string) :
  percent_free f = true ->
  Sprintf f [VString m] = f ++ "%!(EXTRA string=" ++ m ++ ")".
Proof.
  intros H. rewrite <- (append_empty_r f) at 1.
  rewrite Sprintf_literal by exact H. reflexivity.
Qed.

Lemma Sprintf_template_missing (l : string) (ls : list string) :
  percent_free l = true -> forallb percent_free ls = true ->
  Sprintf (template l ls) [] = l ++ missing ls.
Proof.
  revert l. induction ls as [|l' ls IH]; intros l Hl Hls.
  - cbn [template missing]. rewrite Sprintf_plain by exact Hl.
    now rewrite append_empty_r.
  - cbn [forallb] in Hls. apply andb_prop in Hls as [Hl' Hls].
    cbn [template missing]. rewrite Sprintf_literal by exact Hl.
    change (Sprintf ("%s" ++ template l' ls) [])
      with ("%!s(MISSING)" ++ Sprintf (template l' ls) []).
    now rewrite IH.
Qed.

Lemma Sprintf_placeholders (l0 l1 m : string) (rest : list string) :
  percent_free l0 = true -> percent_free l1 = true ->
  forallb percent_free rest = true ->
  Sprintf (template l0 (l1 :: rest)) [VString m]
  = l0 ++ m ++ l1 ++ missing rest.
Proof.
  intros H0 H1 Hrest. cbn [template].
  rewrite Sprintf_message by exact H0.
  now rewrite Sprintf_template_missing.
Qed.

Lemma Sprintf_d_on_string (t1 t2 m : string) :
  percent_free t1 = true -> percent_free t2 = true ->
  Sprintf (t1 ++ "%d" ++ t2) [VString m]
  = t1 ++ "%!d(string=" ++ m ++ ")" ++ t2.
Proof.
  intros H1 H2. rewrite Sprintf_literal by exact H1.
  change (Sprintf ("%d" ++ t2) [VString m])
    with (badVerb "d" (VString m) ++ Sprintf t2 []).
  rewrite Sprintf_plain by exact H2.
  apply (f_equal (fun x => t1 ++ x)).
  transitivity (("%!d(string=" ++ m ++ ")") ++ t2); [reflexivity |].
  now rewrite !append_assoc.
Qed.

Lemma Sprintf_s_on_int (t1 t2 : string) (n : Z) :
  percent_free t1 = true -> percent_free t2 = true ->
  Sprintf (t1 ++ "%s" ++ t2) [VInt n]
  = t1 ++ "%!s(int=" ++ Itoa n ++ ")" ++ t2.
Proof.
  intros H1 H2. rewrite Sprintf_literal by exact H1.
  change (Sprintf ("%s" ++ t2) [VInt n])
    with (badVerb "s" (VInt n) ++ Sprintf t2 []).
  rewrite Sprintf_plain by exact H2.
  apply (f_equal (fun x => t1 ++ x)).
  transitivity (("%!s(int=" ++ Itoa n ++ ")") ++ t2); [reflexivity |].
  now rewrite !append_assoc.
Qed.

(** [Sprintf] never fails: the three ways a format string can disagree
    with its operands all end up in the text. *)
Lemma Sprintf_wrong_verb (m : string) :
  Sprintf "%d" [VString m] = "%!d(string=" ++ m ++ ")".
Proof.
  change (Sprintf "%d" [VString m]) with (badVerb "d" (VString m) ++ "").
  apply append_empty_r.
Qed.

Lemma Sprintf_missing (m : string) :
  Sprintf "%s %s" [VString m] = m ++ " %!s(MISSING)".
Proof. reflexivity. Qed.

Lemma Sprintf_extra (m : string) :
  Sprintf "done" [VString m] = "done%!(EXTRA string=" ++ m ++ ")".
Proof. reflexivity. Qed.

(** ** The emission pipeline *)

Lemma bind_Returns {A B : Type} (a : A) (k : A -> outcome B) :
  (x ← Returns a; k x) = k a.
Proof. reflexivity. Qed.

Lemma SetLevelColor_resolved (g : Registry) (log : Logger) (level : LogLevel)
    (line : string) :
  Logger.SetLevelColor g log level line = resolved_color g log level line.
Proof.
  unfold Logger.SetLevelColor, resolved_color.
  destruct (colors_of g (colorMap log) !! level); [reflexivity |].
  destruct (DefaultColorMap g !! level); reflexivity.
Qed.

(** Every leveled method is [logInterface] at its level, writer and
    message. *)
Lemma run_logInterface (g : Registry) (log : Logger) (c : call) (w : World) :
  run g log c w
  = Logger.logInterface g log (target_of log c) (level_of c) (message_of c) w.
Proof. destruct c; reflexivity. Qed.

Lemma logInterface_shut (g : Registry) (log : Logger) (wr : Writer)
    (level : LogLevel) (s : value) (w : World) :
  Quiet log = true \/ level < Level log ->
  Logger.logInterface g log wr level s w = Returns w.
Proof.
  intros H. unfold Logger.logInterface.
  destruct H as [-> | H]; [reflexivity |].
  apply Z.leb_gt in H. rewrite H, andb_false_r. reflexivity.
Qed.

Lemma logInterface_open (g : Registry) (log : Logger) (wr : Writer)
    (level : LogLevel) (s : value) (w : World) :
  Quiet log = false -> Level log <= level ->
  Logger.logInterface g log wr level s w
  = line ← Logger.Format g log level [s] w; emission g log wr level line w.
Proof.
  intros Hq Hl. unfold Logger.logInterface, emission.
  apply Z.leb_le in Hl. rewrite Hq, Hl. cbn [negb andb].
  destruct (Logger.Format g log level [s] w) as [line|]; [| reflexivity].
  cbn. destruct (Color log);
    (destruct (Fprint wr _ w) as [w'|]; [| reflexivity]);
    cbn; destruct (LogToFile log); reflexivity.
Qed.

Lemma Format_returns (g : Registry) (log : Logger) (level : LogLevel)
    (s : list value) (w : World) (suffix prefix : instant -> string) :
  SuffixFunc log = Some suffix -> PrefixFunc log = Some prefix ->
  Logger.Format g log level s w
  = Returns
      (substitute (suffix (clock w)) (prefix (clock w))
                  (raw_line g log level s)).
Proof.
  intros Hs Hp. unfold Logger.Format, raw_line, template_of, substitute.
  rewrite Hs, Hp.
  destruct (strings_of g (formatter log) !! level); [reflexivity |].
  destruct (DefaultFormatterMap g !! level); reflexivity.
Qed.

Lemma Format_panics_iff (g : Registry) (log : Logger) (level : LogLevel)
    (s : list value) (w : World) :
  Logger.Format g log level s w = Panics
  <-> SuffixFunc log = None \/ PrefixFunc log = None.
Proof.
  unfold Logger.Format.
  destruct (SuffixFunc log), (PrefixFunc log); split;
    try discriminate; try reflexivity; try tauto;
    intros [H | H]; discriminate.
Qed.

(** ** Files and setters *)

Lemma OpenFile_fails (path : string) (fl : flags) (w : World) :
  can_open w path = false ->
  os.OpenFile path fl w
  = (inr (PathError "open" path "no such file or directory"), w).
Proof. intros H. unfold os.OpenFile. now rewrite H. Qed.

Lemma InitLogFile_fails (log : Logger) (w : World) :
  can_open w (LogFileName log) = false ->
  Logger.InitLogFile log w
  = (set_logFile None log,
     Println "Error: Set log file is error" (released log w)).
Proof.
  intros H. unfold Logger.InitLogFile, released.
  destruct (logFile log) as [f|]; rewrite OpenFile_fails by exact H;
    reflexivity.
Qed.

Lemma InitLogFile_opens (log : Logger) (w : World) :
  can_open w (LogFileName log) = true ->
  Logger.InitLogFile log w
  = (set_logFile (Some {| fd := next_fd w; name := LogFileName log |}) log,
     with_files
       (<[LogFileName log := default "" (files w !! LogFileName log)]> (files w))
       (<[next_fd w := {| d_path := LogFileName log; d_access := O_WRONLY;
                          d_append := true; d_offset := 0 |}]>
          (open_files (released log w)))
       (S (next_fd w)) (released log w)).
Proof.
  intros H. unfold Logger.InitLogFile, released, os.OpenFile.
  destruct (logFile log) as [f|];
    cbn [LogFileName set_logFile];
    [change (can_open (os.Close f w) (LogFileName log))
       with (can_open w (LogFileName log)) |];
    rewrite H; cbn;
    destruct (files w !! LogFileName log); reflexivity.
Qed.

Lemma only_changes_intro (fs : list field) (a b : Logger) :
  (forall f, same_at f a b \/ In f fs) -> only_changes fs a b.
Proof. intros H f Hf. destruct (H f) as [Hs | Hin]; [exact Hs | contradiction]. Qed.

Ltac frame_of_setter :=
  apply only_changes_intro; intros []; cbn; auto 20.

Lemma writeToFile_appends (log : Logger) (line : string) (w : World)
    (f : File) (d : descriptor) :
  logFile log = Some f -> open_files w !! fd f = Some d ->
  d_append d = true -> d_access d <> O_RDONLY ->
  files (Logger.writeToFile log line w) !! d_path d
    = Some (default "" (files w !! d_path d) ++ line)
  /\ stdout (Logger.writeToFile log line w) = stdout w
  /\ sinks (Logger.writeToFile log line w) = sinks w.
Proof.
  intros Hf Hd Ha Hacc. unfold Logger.writeToFile, os.WriteString.
  rewrite Hf, Hd, Ha.
  destruct (d_access d); [contradiction | |];
    cbn; rewrite lookup_insert_eq; repeat split; reflexivity.
Qed.

(** ** The scenarios of the package's test, run on the model *)

Example newline_is_LF : newline = String (ascii_of_nat 10) "".
Proof. reflexivity. Qed.

Example Warn_at_default_level :
  run (initial tags) Log (CallWarn (VString "x")) fresh_world
  = Returns (Print ("[Warn] x " ++ newline) fresh_world).
Proof. vm_compute. reflexivity. Qed.

Example Info_carries_the_time :
  Logger.Format (initial tags) (Logger.SetLevel Debug Log) Info
    [VString "info"] fresh_world
  = Returns ("[-] info , 2024-03-09 07:05.01" ++ newline).
Proof. vm_compute. reflexivity. Qed.

Example Importantf_formats_first :
  Logger.Format (initial tags) (Logger.SetLevel Debug Log) Important
    [VString (Sprintf "%stest%s" [VString "aaa"; VString "sd"])] fresh_world
  = Returns ("[*] aaatestsd , 2024-03-09 07:05.01" ++ newline).
Proof. vm_compute. reflexivity. Qed.

Example level_1_below_Debug :
  run test_registry (Logger.SetLevel Debug Log) (CallLog 1 (VString "test"))
      fresh_world
  = Returns fresh_world.
Proof. vm_compute. reflexivity. Qed.

(** * Properties of the logger *)

(** C1. A leveled logging call writes only if the quiet flag is false
    and its level is at least the logger's minimum level: when quiet is
    set or the level is below the minimum, the call returns and leaves
    the whole environment (standard output, every writer, every file)
    as it was; hence a call that changes the environment passed the
    guard.  This holds for each of the twenty leveled methods. *)
Theorem C1_guard (g : Registry) (log : Logger) (c : call) (w : World) :
  (Quiet log = true \/ level_of c < Level log -> run g log c w = Returns w)
  /\ (forall w', run g log c w = Returns w' -> w' <> w ->
        Quiet log = false /\ Level log <= level_of c).
Proof.
  rewrite run_logInterface. split.
  - apply logInterface_shut.
  - intros w' Hrun Hne.
    destruct (Quiet log) eqn:Hq.
    + rewrite logInterface_shut in Hrun by (left; exact Hq). congruence.
    + destruct (Z.lt_ge_cases (level_of c) (Level log)) as [Hlt | Hge].
      * rewrite logInterface_shut in Hrun by (right; exact Hlt). congruence.
      * split; [reflexivity | exact Hge].
Qed.

Lemma C1_guard_witness :
  run (initial tags) Log (CallDebug (VString "x")) fresh_world
  = Returns fresh_world.
Proof.
  apply (proj1 (C1_guard (initial tags) Log (CallDebug (VString "x"))
                         fresh_world)).
  right. reflexivity.
Defined.

(** C2, as the code has it.  [Clean] does not skip the console write
    of a leveled call: with [Clean] set and file logging off,
    [Warn("x")] still writes its line to the logger's writer, so the
    environment is not left as it was. *)
Lemma C2_counterexample :
  Clean clean_logger = true
  /\ run (initial tags) clean_logger (CallWarn (VString "x")) fresh_world
     = Returns (with_sinks {[ 0%nat := "[Warn] x " ++ newline ]} fresh_world)
  /\ with_sinks {[ 0%nat := "[Warn] x " ++ newline ]} fresh_world
     <> fresh_world.
Proof.
  split; [reflexivity |]. split; [vm_compute; reflexivity |].
  intros H. apply (f_equal (fun w => sinks w !! 0%nat)) in H.
  vm_compute in H. discriminate.
Qed.

(** C2, amended.  A leveled call that passes the guard writes its line
    to the target writer and, when log-to-file is on, to the file,
    whatever the [Clean] flag is; [Clean] only turns [Console],
    [Consolef] and [FConsolef] into no-ops. *)
Theorem C2_clean_gates_console_only (g : Registry) (log : Logger) (c : call)
    (w : World) (line : string) :
  Quiet log = false -> Level log <= level_of c ->
  Logger.Format g log (level_of c) [message_of c] w = Returns line ->
  (forall clean,
     run g (Logger.SetClean clean log) c w
     = w1 ← Fprint (target_of log c)
              (if Color log then Logger.SetLevelColor g log (level_of c) line
               else line) w;
       Returns (if LogToFile log then Logger.writeToFile log line w1 else w1))
  /\ (forall s format a wr,
        Logger.Console s (Logger.SetClean true log) w = Returns w
        /\ Logger.Consolef format a (Logger.SetClean true log) w = Returns w
        /\ Logger.FConsolef wr format a (Logger.SetClean true log) w
           = Returns w).
Proof.
  intros Hq Hl Hf. split; [| intros; repeat split; reflexivity].
  intros clean. rewrite run_logInterface.
  rewrite logInterface_open by assumption.
  assert (Htarget : target_of (Logger.SetClean clean log) c = target_of log c)
    by (destruct c; reflexivity).
  rewrite Htarget.
  change (Logger.Format g (Logger.SetClean clean log))
    with (Logger.Format g log).
  rewrite Hf. reflexivity.
Qed.

Lemma C2_clean_gates_console_only_witness :
  run (initial tags) clean_logger (CallWarn (VString "x")) fresh_world
  = Returns (with_sinks {[ 0%nat := "[Warn] x " ++ newline ]} fresh_world).
Proof.
  pose proof (C2_clean_gates_console_only (initial tags)
                (Logger.SetOutput (Sink 0) Log) (CallWarn (VString "x"))
                fresh_world ("[Warn] x " ++ newline)
                eq_refl ltac:(vm_compute; discriminate) eq_refl) as [H _].
  unfold clean_logger. rewrite (H true). vm_compute. reflexivity.
Defined.

(** C3. With colours on, the colour function of the level (the
    instance's override, else the global default, else the identity)
    is applied to the whole rendered line, tokens already replaced,
    and the result goes to the target writer; the file is handed the
    rendered line itself, uncoloured: an open log file grows by exactly
    that line. *)
Theorem C3_color_wraps_rendered_line (g : Registry) (log : Logger) (c : call)
    (w : World) (suffix prefix : instant -> string) (line : string) :
  Quiet log = false -> Level log <= level_of c -> Color log = true ->
  SuffixFunc log = Some suffix -> PrefixFunc log = Some prefix ->
  line = substitute (suffix (clock w)) (prefix (clock w))
                    (raw_line g log (level_of c) [message_of c]) ->
  run g log c w
  = (w1 ← Fprint (target_of log c) (resolved_color g log (level_of c) line) w;
     Returns (if LogToFile log then Logger.writeToFile log line w1 else w1))
  /\ (forall w1 f d,
        Fprint (target_of log c) (resolved_color g log (level_of c) line) w
        = Returns w1 ->
        LogToFile log = true -> logFile log = Some f ->
        open_files w1 !! fd f = Some d ->
        d_append d = true -> d_access d <> O_RDONLY ->
        exists w2,
          run g log c w = Returns w2
          /\ files w2 !! d_path d
             = Some (default "" (files w1 !! d_path d) ++ line)
          /\ stdout w2 = stdout w1 /\ sinks w2 = sinks w1).
Proof.
  intros Hq Hl Hc Hs Hp ->.
  set (line := substitute _ _ _).
  assert (Hrun : run g log c w
                 = (w1 ← Fprint (target_of log c)
                           (resolved_color g log (level_of c) line) w;
                    Returns (if LogToFile log
                             then Logger.writeToFile log line w1 else w1))).
  { rewrite run_logInterface, logInterface_open by assumption.
    rewrite (Format_returns _ _ _ _ _ _ _ Hs Hp), bind_Returns. fold line.
    unfold emission. rewrite Hc, SetLevelColor_resolved. reflexivity. }
  split; [exact Hrun |].
  intros w1 f d Hw1 Hfile Hf Hd Ha Hacc.
  exists (Logger.writeToFile log line w1).
  rewrite Hrun, Hw1, Hfile. split; [reflexivity |].
  now apply (writeToFile_appends log line w1 f d).
Qed.

Lemma C3_color_wraps_rendered_line_witness :
  exists w2,
    run (initial tags) (fst color_logger_and_world) (CallWarn (VString "x"))
        (snd color_logger_and_world) = Returns w2
    /\ sinks w2 !! 0%nat = Some ("<YellowBold>[Warn] x " ++ newline)
    /\ files w2 !! "app.log" = Some ("[Warn] x " ++ newline).
Proof.
  destruct (C3_color_wraps_rendered_line (initial tags)
              (fst color_logger_and_world) (CallWarn (VString "x"))
              (snd color_logger_and_world)
              (fun t => ", " ++ getCurtime t) (fun _ => "")
              ("[Warn] x " ++ newline)
              eq_refl ltac:(vm_compute; discriminate) eq_refl eq_refl eq_refl
              eq_refl) as [Hrun _].
  eexists. split; [exact Hrun |].
  split; vm_compute; reflexivity.
Defined.

(** C4, as the code has it.  With level 1 registered as "test" and no
    formatter for it, [Log(1, "test")] renders "[test] test " and not
    what the template "[test] %s" of [LogLevel.Formatter] would give. *)
Lemma C4_counterexample :
  LogLevel.Formatter test_registry 1 = "[test] %s"
  /\ Logger.Format test_registry (Logger.SetLevel 0 Log) 1 [VString "test"]
       fresh_world
     = Returns "[test] test "
  /\ Logger.Format test_registry (Logger.SetLevel 0 Log) 1 [VString "test"]
       fresh_world
     <> Returns (substitute (", " ++ getCurtime morning) ""
                   (Sprintf "[test] %s" [VString "test"])).
Proof.
  split; [vm_compute; reflexivity |].
  split; [vm_compute; reflexivity |].
  vm_compute. discriminate.
Qed.

(** C4, amended.  [Format] takes the format string of the level from
    the logger's own map, else from the package-level map; when neither
    has one it formats the level's name and the message with the fixed
    template "[%s] %s ", which gives "[<name>] <message> " with a space
    at the end.  Both tokens are then replaced in the result. *)
Theorem C4_template_resolution (g : Registry) (log : Logger)
    (level : LogLevel) (s : list value) (w : World)
    (suffix prefix : instant -> string) :
  SuffixFunc log = Some suffix -> PrefixFunc log = Some prefix ->
  exists raw,
    Logger.Format g log level s w
    = Returns (substitute (suffix (clock w)) (prefix (clock w)) raw)
    /\ (forall f, strings_of g (formatter log) !! level = Some f ->
          raw = Sprintf f s)
    /\ (forall f, strings_of g (formatter log) !! level = None ->
          DefaultFormatterMap g !! level = Some f -> raw = Sprintf f s)
    /\ (strings_of g (formatter log) !! level = None ->
        DefaultFormatterMap g !! level = None ->
        forall m, s = [m] ->
          raw = "[" ++ LogLevel.Name g level ++ "] " ++ printArg m "s" ++ " ")
    /\ (forall name, Levels g !! level = Some name ->
          LogLevel.Name g level = name).
Proof.
  intros Hs Hp. exists (raw_line g log level s).
  split; [now apply Format_returns |].
  unfold raw_line, template_of.
  repeat split.
  - intros f ->. reflexivity.
  - intros f -> ->. reflexivity.
  - intros -> -> m ->. reflexivity.
  - intros name Hn. unfold LogLevel.Name. now rewrite Hn.
Qed.

Lemma C4_template_resolution_witness :
  Logger.Format test_registry (Logger.SetLevel 0 Log) 1 [VString "test"]
    fresh_world
  = Returns "[test] test ".
Proof.
  destruct (C4_template_resolution test_registry (Logger.SetLevel 0 Log) 1
              [VString "test"] fresh_world
              (fun t => ", " ++ getCurtime t) (fun _ => "") eq_refl eq_refl)
    as (raw & Hfmt & _ & _ & Hfallback & _).
  rewrite Hfmt, (Hfallback eq_refl eq_refl (VString "test") eq_refl).
  vm_compute. reflexivity.
Defined.

(** C5. A token that stands inside the caller's message is replaced
    like one that stands in the formatter: the message goes into the
    line first and the replacement runs over the whole line.  For a
    message [a ++ token ++ b], under a registered template with one
    [%s] and no other percent sign as well as under the fallback, the
    producer's output at the time of the call stands where the token
    stood. *)
Theorem C5_tokens_in_message (g : Registry) (log : Logger) (level : LogLevel)
    (w : World) (suffix prefix : instant -> string) (sfx pfx a b : string) :
  SuffixFunc log = Some suffix -> PrefixFunc log = Some prefix ->
  suffix (clock w) = sfx -> prefix (clock w) = pfx ->
  (forall t1 t2,
     template_of g log level = Some (t1 ++ "%s" ++ t2) ->
     percent_free t1 = true -> percent_free t2 = true ->
     Logger.Format g log level [VString (a ++ "{{suffix}}" ++ b)] w
     = Returns
         (Replace (Replace (t1 ++ a) "{{suffix}}" sfx ++ sfx
                   ++ Replace (b ++ t2) "{{suffix}}" sfx)
                  "{{prefix}}" pfx)
     /\ Logger.Format g log level [VString (a ++ "{{prefix}}" ++ b)] w
        = Returns
            (substitute sfx pfx (t1 ++ a) ++ pfx
             ++ substitute sfx pfx (b ++ t2)))
  /\ (template_of g log level = None ->
      Logger.Format g log level [VString (a ++ "{{suffix}}" ++ b)] w
      = Returns
          (Replace (Replace ("[" ++ LogLevel.Name g level ++ "] " ++ a)
                            "{{suffix}}" sfx
                    ++ sfx ++ Replace (b ++ " ") "{{suffix}}" sfx)
                   "{{prefix}}" pfx)
      /\ Logger.Format g log level [VString (a ++ "{{prefix}}" ++ b)] w
         = Returns
             (substitute sfx pfx ("[" ++ LogLevel.Name g level ++ "] " ++ a)
              ++ pfx ++ substitute sfx pfx (b ++ " "))).
Proof.
  intros Hs Hp <- <-. split.
  - intros t1 t2 Ht Hfree1 Hfree2.
    rewrite !(Format_returns _ _ _ _ _ _ _ Hs Hp). unfold raw_line.
    rewrite Ht, !Sprintf_one_message by assumption.
    rewrite !regroup.
    now rewrite substitute_suffix_inside, substitute_prefix_inside.
  - intros Ht.
    rewrite !(Format_returns _ _ _ _ _ _ _ Hs Hp). unfold raw_line.
    rewrite Ht.
    set (name := LogLevel.Name g level).
    assert (Hraw : forall tok,
               Sprintf "[%s] %s " [VString name; VString (a ++ tok ++ b)]
               = ("[" ++ name ++ "] " ++ a) ++ tok ++ (b ++ " ")).
    { intros tok.
      change (Sprintf "[%s] %s " [VString name; VString (a ++ tok ++ b)])
        with ("[" ++ name ++ "] " ++ (a ++ tok ++ b) ++ " ").
      rewrite !append_cons. f_equal. change ("" ++ ?x) with x.
      now rewrite !append_assoc. }
    rewrite !Hraw.
    now rewrite substitute_suffix_inside, substitute_prefix_inside.
Qed.

Lemma C5_tokens_in_message_witness :
  Logger.Format (initial tags) (Logger.SetLevel Debug Log) Info
    [VString ("up{{suffix}}" ++ "!")] fresh_world
  = Returns ("[-] up, 2024-03-09 07:05.01! , 2024-03-09 07:05.01" ++ newline).
Proof.
  destruct (C5_tokens_in_message (initial tags) (Logger.SetLevel Debug Log)
              Info fresh_world (fun t => ", " ++ getCurtime t) (fun _ => "")
              ", 2024-03-09 07:05.01" "" "up" "!"
              eq_refl eq_refl eq_refl eq_refl) as [Hreg _].
  destruct (Hreg "[-] " (" {{suffix}}" ++ newline) eq_refl eq_refl eq_refl)
    as [Hsuffix _].
  etransitivity; [exact Hsuffix |]. vm_compute. reflexivity.
Defined.

(** C6. Turning file logging on when the configured path cannot be
    opened (the path is empty, or its directory is missing) still sets
    the flag, tells so on standard output and leaves the file handle
    nil.  For a logger in that state every leveled call that passes the
    guard writes its line to the target writer, prints the diagnostic
    and returns: no file is touched and nothing panics. *)
Theorem C6_unopenable_log_file (log log' : Logger) (w w' : World) :
  can_open w (LogFileName log) = false ->
  Logger.SetIsLogToFile true log w = (log', w') ->
  LogToFile log' = true
  /\ logFile log' = None
  /\ stdout w' = stdout w ++ "Error: Set log file is error" ++ newline
  /\ files w' = files w
  /\ (forall g c w1 w2 line,
        Quiet log' = false -> Level log' <= level_of c ->
        Logger.Format g log' (level_of c) [message_of c] w1 = Returns line ->
        Fprint (target_of log' c)
               (if Color log' then Logger.SetLevelColor g log' (level_of c) line
                else line) w1 = Returns w2 ->
        run g log' c w1
        = Returns (Println "Error: Log file is not initialized." w2)
        /\ files (Println "Error: Log file is not initialized." w2)
           = files w2).
Proof.
  intros Hopen Hset.
  unfold Logger.SetIsLogToFile in Hset. cbn [LogToFile set_LogToFile] in Hset.
  rewrite InitLogFile_fails in Hset by exact Hopen.
  injection Hset as Hlog Hw.
  assert (Hflag : LogToFile log' = true) by (now rewrite <- Hlog).
  assert (Hnil : logFile log' = None) by (now rewrite <- Hlog).
  split; [exact Hflag |]. split; [exact Hnil |].
  split; [| split].
  - rewrite <- Hw. unfold released. cbn. destruct (logFile log); reflexivity.
  - rewrite <- Hw. unfold released. cbn. destruct (logFile log); reflexivity.
  - intros g c w1 w2 line Hq Hl Hfmt Hwrite.
    split; [| reflexivity].
    rewrite run_logInterface, logInterface_open by assumption.
    rewrite Hfmt, bind_Returns. unfold emission.
    rewrite Hwrite, bind_Returns, Hflag.
    unfold Logger.writeToFile. now rewrite Hnil.
Qed.

Lemma C6_unopenable_log_file_witness :
  LogToFile (fst lost_state) = true
  /\ logFile (fst lost_state) = None
  /\ run (initial tags) (fst lost_state) (CallWarn (VString "a"))
         (snd lost_state)
     = Returns (Println "Error: Log file is not initialized."
                  (Print ("[Warn] a " ++ newline) (snd lost_state))).
Proof.
  destruct (C6_unopenable_log_file lost_logger (fst lost_state) fresh_world
              (snd lost_state) eq_refl eq_refl)
    as (Hflag & Hnil & _ & _ & Hemit).
  split; [exact Hflag |]. split; [exact Hnil |].
  apply (Hemit (initial tags) (CallWarn (VString "a")) (snd lost_state)
           (Print ("[Warn] a " ++ newline) (snd lost_state))
           ("[Warn] a " ++ newline)
           eq_refl ltac:(vm_compute; discriminate) eq_refl eq_refl).
Defined.

(** C7. [NewFileLogger] opens the file for reading and writing, creates
    it empty when it is missing and keeps its contents when it exists.
    When the file cannot be opened it returns the error and no logger;
    otherwise the logger it returns has minimum level [Warn], colours
    off, and the file as its writer. *)
Theorem C7_NewFileLogger (path : string) (w : World) :
  (can_open w path = false ->
   exists err, NewFileLogger path w = ((None, Some err), w))
  /\ (can_open w path = true ->
      exists log f w',
        NewFileLogger path w = ((Some log, None), w')
        /\ Level log = Warn /\ Color log = false
        /\ writer log = FileWriter f
        /\ open_files w' !! fd f
           = Some {| d_path := path; d_access := O_RDWR;
                     d_append := false; d_offset := 0 |}
        /\ files w' !! path = Some (default "" (files w !! path))).
Proof.
  unfold NewFileLogger, os.OpenFile. split; intros Hopen; rewrite Hopen.
  - eexists. reflexivity.
  - destruct (files w !! path) as [old|] eqn:Hold;
      do 3 eexists; (split; [reflexivity |]);
      repeat split; cbn; rewrite ?lookup_insert_eq; reflexivity.
Qed.

Lemma C7_NewFileLogger_witness :
  (exists err,
     NewFileLogger "/nowhere/app.log" fresh_world
     = ((None, Some err), fresh_world))
  /\ (exists log f w',
        NewFileLogger "app.log" fresh_world = ((Some log, None), w')
        /\ Level log = 30 /\ Color log = false
        /\ writer log = FileWriter f
        /\ files w' !! "app.log" = Some "").
Proof.
  split.
  - apply (proj1 (C7_NewFileLogger "/nowhere/app.log" fresh_world)).
    reflexivity.
  - destruct (proj2 (C7_NewFileLogger "app.log" fresh_world) eq_refl)
      as (log & f & w' & Hnew & Hlevel & Hcolor & Hwriter & _ & Hfiles).
    exists log, f, w'. repeat split; assumption.
Defined.

(** C8, as the code has it.  With the formatter "%d and %s" installed
    for [Warn], rendering the message "x" returns a line; and no format
    string at all makes [Format] panic when the two producers are set. *)
Lemma C8_counterexample :
  Logger.Format (initial tags) mismatched_logger Warn [VString "x"] fresh_world
  = Returns "%!d(string=x) and %!s(MISSING)"
  /\ ~ (exists (f : string) (m : value) (g : Registry) (log : Logger)
               (level : LogLevel) (w : World),
          strings_of g (formatter log) !! level = Some f
          /\ SuffixFunc log <> None /\ PrefixFunc log <> None
          /\ Logger.Format g log level [m] w = Panics).
Proof.
  split; [vm_compute; reflexivity |].
  intros (f & m & g & log & level & w & _ & Hs & Hp & Hpanic).
  apply Format_panics_iff in Hpanic. tauto.
Qed.

(** C8, amended.  A format string whose placeholders do not fit the
    message is not checked and does not make rendering panic.  For a
    format string of literal text and plain [%s], [%v], [%d]
    directives [Format] returns what [Sprintf] makes of it, tokens
    replaced; and [Sprintf] writes the mismatch into the line: with no
    placeholder the message follows the text as an [EXTRA] operand,
    with several [%s] the first takes the message and each further one
    reads [%!s(MISSING)], a [%d] given a string message and a [%s]
    given an int message print the verb, the type and the value. *)
Theorem C8_mismatch_is_rendered (g : Registry) (log : Logger)
    (level : LogLevel) (f : string) (w : World)
    (suffix prefix : instant -> string) (sfx pfx : string) :
  template_of g log level = Some f ->
  SuffixFunc log = Some suffix -> PrefixFunc log = Some prefix ->
  suffix (clock w) = sfx -> prefix (clock w) = pfx ->
  (forall s, plain_verbs f = true ->
     Logger.Format g log level s w
     = Returns (substitute sfx pfx (Sprintf f s)))
  /\ (forall m, percent_free f = true ->
        Logger.Format g log level [VString m] w
        = Returns (substitute sfx pfx (f ++ "%!(EXTRA string=" ++ m ++ ")")))
  /\ (forall l0 l1 rest m,
        f = template l0 (l1 :: rest) ->
        percent_free l0 = true -> percent_free l1 = true ->
        forallb percent_free rest = true ->
        Logger.Format g log level [VString m] w
        = Returns (substitute sfx pfx (l0 ++ m ++ l1 ++ missing rest)))
  /\ (forall t1 t2 m,
        f = t1 ++ "%d" ++ t2 ->
        percent_free t1 = true -> percent_free t2 = true ->
        Logger.Format g log level [VString m] w
        = Returns (substitute sfx pfx
                     (t1 ++ "%!d(string=" ++ m ++ ")" ++ t2)))
  /\ (forall t1 t2 n,
        f = t1 ++ "%s" ++ t2 ->
        percent_free t1 = true -> percent_free t2 = true ->
        Logger.Format g log level [VInt n] w
        = Returns (substitute sfx pfx
                     (t1 ++ "%!s(int=" ++ Itoa n ++ ")" ++ t2))).
Proof.
  intros Ht Hs Hp <- <-.
  assert (Hfmt : forall s,
             Logger.Format g log level s w
             = Returns (substitute (suffix (clock w)) (prefix (clock w))
                                   (Sprintf f s))).
  { intros s. rewrite (Format_returns _ _ _ _ _ _ _ Hs Hp). unfold raw_line.
    now rewrite Ht. }
  split; [intros s _; apply Hfmt |].
  split; [intros m Hfree; now rewrite Hfmt, Sprintf_no_placeholder |].
  split; [| split].
  - intros l0 l1 rest m -> H0 H1 Hrest.
    now rewrite Hfmt, Sprintf_placeholders.
  - intros t1 t2 m -> H1 H2. now rewrite Hfmt, Sprintf_d_on_string.
  - intros t1 t2 n -> H1 H2. now rewrite Hfmt, Sprintf_s_on_int.
Qed.

Lemma C8_mismatch_is_rendered_witness :
  Logger.Format (initial tags) mismatched_logger Warn [VString "x"] fresh_world
  = Returns "%!d(string=x) and %!s(MISSING)".
Proof.
  destruct (C8_mismatch_is_rendered (initial tags) mismatched_logger Warn
              "%d and %s" fresh_world
              (fun t => ", " ++ getCurtime t) (fun _ => "")
              ", 2024-03-09 07:05.01" ""
              eq_refl eq_refl eq_refl eq_refl eq_refl) as (Hplain & _).
  rewrite (Hplain [VString "x"] eq_refl). vm_compute. reflexivity.
Defined.

(** C9. Each of the eight plain setters stores its argument in its one
    field and leaves every other field of the logger as it was; being
    functions of the logger alone, they touch nothing else.
    [SetIsLogToFile] sets the flag and also acts on the file:
    with [true] it runs [InitLogFile], which closes the open log file
    and opens [LogFileName] for appending; with [false] it closes the
    open log file and makes the handle nil. *)
Theorem C9_setters (log : Logger) (w : World) :
  (forall q, Quiet (Logger.SetQuiet q log) = q
             /\ only_changes [FQuiet] log (Logger.SetQuiet q log))
  /\ (forall c, Clean (Logger.SetClean c log) = c
                /\ only_changes [FClean] log (Logger.SetClean c log))
  /\ (forall c, Color (Logger.SetColor c log) = c
                /\ only_changes [FColor] log (Logger.SetColor c log))
  /\ (forall l, Level (Logger.SetLevel l log) = l
                /\ only_changes [FLevel] log (Logger.SetLevel l log))
  /\ (forall wr, writer (Logger.SetOutput wr log) = wr
                 /\ only_changes [Fwriter] log (Logger.SetOutput wr log))
  /\ (forall filename,
        LogFileName (Logger.SetFile filename log) = filename
        /\ only_changes [FLogFileName] log (Logger.SetFile filename log))
  /\ (forall fm, formatter (Logger.SetFormatter fm log) = fm
                 /\ only_changes [Fformatter] log (Logger.SetFormatter fm log))
  /\ (forall cm, colorMap (Logger.SetColorMap cm log) = cm
                 /\ only_changes [FcolorMap] log (Logger.SetColorMap cm log))
  /\ Logger.SetIsLogToFile true log w
     = Logger.InitLogFile (set_LogToFile true log) w
  /\ (forall log' w',
        Logger.SetIsLogToFile true log w = (log', w') ->
        LogToFile log' = true
        /\ only_changes [FLogToFile; FlogFile] log log'
        /\ (forall f, logFile log = Some f -> fd f <> next_fd w ->
              open_files w' !! fd f = None)
        /\ (can_open w (LogFileName log) = true ->
            logFile log' = Some {| fd := next_fd w; name := LogFileName log |}
            /\ open_files w' !! next_fd w
               = Some {| d_path := LogFileName log; d_access := O_WRONLY;
                         d_append := true; d_offset := 0 |}
            /\ files w' !! LogFileName log
               = Some (default "" (files w !! LogFileName log)))
        /\ (can_open w (LogFileName log) = false -> logFile log' = None))
  /\ (forall log' w',
        Logger.SetIsLogToFile false log w = (log', w') ->
        LogToFile log' = false
        /\ logFile log' = None
        /\ only_changes [FLogToFile; FlogFile] log log'
        /\ w' = released log w
        /\ (forall f, logFile log = Some f -> open_files w' !! fd f = None)).
Proof.
  repeat match goal with |- _ /\ _ => split end;
    try (intros; split; [reflexivity | frame_of_setter]).
  - reflexivity.
  - intros log' w' Hset.
    unfold Logger.SetIsLogToFile in Hset. cbn [LogToFile set_LogToFile] in Hset.
    destruct (can_open w (LogFileName log)) eqn:Hopen.
    + rewrite InitLogFile_opens in Hset by exact Hopen.
      injection Hset as <- <-.
      split; [reflexivity |]. split; [frame_of_setter |].
      split; [| split; [| discriminate]].
      * intros f Hf Hne. cbn. rewrite lookup_insert_ne by congruence.
        unfold released. cbn. rewrite Hf. cbn. apply lookup_delete_eq.
      * intros _. cbn. rewrite !lookup_insert_eq. repeat split.
    + rewrite InitLogFile_fails in Hset by exact Hopen.
      injection Hset as <- <-.
      split; [reflexivity |]. split; [frame_of_setter |].
      split; [| split; [discriminate | reflexivity]].
      intros f Hf _. unfold released. cbn. rewrite Hf. cbn.
      apply lookup_delete_eq.
  - intros log' w' Hset.
    unfold Logger.SetIsLogToFile, released in *.
    cbn [LogToFile set_LogToFile logFile] in Hset.
    destruct (logFile log) as [f|] eqn:Hf; injection Hset as <- <-;
      (split; [reflexivity |]); (split; [cbn; now rewrite ?Hf |]);
      (split; [frame_of_setter; now rewrite Hf |]); (split; [reflexivity |]).
    + intros f' [= <-]. cbn. apply lookup_delete_eq.
    + discriminate.
Qed.

(** C10. The suffix token is replaced first and the prefix token after
    it, each over the whole line.  So a prefix token that the suffix
    producer emits is replaced by the prefix producer's output, while a
    suffix token that the prefix producer emits stays in the line as it
    is. *)
Theorem C10_suffix_before_prefix (g : Registry) (log : Logger)
    (level : LogLevel) (s : list value) (w : World)
    (suffix prefix : instant -> string) (sfx pfx x y a b : string) :
  SuffixFunc log = Some suffix -> PrefixFunc log = Some prefix ->
  suffix (clock w) = sfx -> prefix (clock w) = pfx ->
  (raw_line g log level s = x ++ "{{suffix}}" ++ y ->
   sfx = a ++ "{{prefix}}" ++ b ->
   Logger.Format g log level s w
   = Returns (Replace (Replace x "{{suffix}}" sfx ++ a) "{{prefix}}" pfx
              ++ pfx
              ++ Replace (b ++ Replace y "{{suffix}}" sfx) "{{prefix}}" pfx))
  /\ (raw_line g log level s = x ++ "{{prefix}}" ++ y ->
      pfx = a ++ "{{suffix}}" ++ b ->
      Logger.Format g log level s w
      = Returns (substitute sfx pfx x
                 ++ a ++ "{{suffix}}" ++ b
                 ++ substitute sfx pfx y)).
Proof.
  intros Hs Hp Hsfx Hpfx.
  rewrite (Format_returns _ _ _ _ _ _ _ Hs Hp). subst sfx pfx. split.
  - intros -> Ha. rewrite substitute_suffix_inside, Ha.
    f_equal. apply Replace_prefix_around.
  - intros -> Ha. rewrite substitute_prefix_inside, Ha.
    now rewrite !append_assoc.
Qed.

Lemma C10_suffix_before_prefix_witness :
  Logger.Format (initial tags) crossed_logger Info [VString "m"] fresh_world
  = Returns "({{suffix}}) m <({{suffix}})>".
Proof.
  destruct (C10_suffix_before_prefix (initial tags) crossed_logger Info
              [VString "m"] fresh_world
              (fun _ => "<{{prefix}}>") (fun _ => "({{suffix}})")
              "<{{prefix}}>" "({{suffix}})" "{{prefix}} m " "" "<" ">"
              eq_refl eq_refl eq_refl eq_refl) as [Hfirst _].
  rewrite (Hfirst eq_refl eq_refl). vm_compute. reflexivity.
Defined.

(** * Further properties *)

(** ** The level registry *)

Lemma AddLevel_options (level : LogLevel) (opts : list opt) (acc : Registry) :
  fold_left
    (fun g o =>
       match o with
       | OptString s =>
           {| Levels := Levels g; DefaultColorMap := DefaultColorMap g;
              DefaultFormatterMap := <[level := s]> (DefaultFormatterMap g) |}
       | OptColor f =>
           {| Levels := Levels g;
              DefaultColorMap := <[level := f]> (DefaultColorMap g);
              DefaultFormatterMap := DefaultFormatterMap g |}
       | OptOther _ => g
       end) opts acc
  = {| Levels := Levels acc;
       DefaultColorMap :=
         match last_color opts with
         | Some f => <[level := f]> (DefaultColorMap acc)
         | None => DefaultColorMap acc
         end;
       DefaultFormatterMap :=
         match last_string opts with
         | Some s => <[level := s]> (DefaultFormatterMap acc)
         | None => DefaultFormatterMap acc
         end |}.
Proof.
  revert acc. induction opts as [|o opts IH]; intros acc.
  - destruct acc; reflexivity.
  - cbn [fold_left last_color last_string]. rewrite IH.
    destruct o as [s | f | v]; cbn;
      destruct (last_color opts), (last_string opts);
      rewrite ?insert_insert_eq; reflexivity.
Qed.

Lemma AddLevel_eq (level : LogLevel) (name : string) (opts : list opt)
    (g : Registry) :
  AddLevel level name opts g
  = {| Levels := <[level := name]> (Levels g);
       DefaultColorMap :=
         match last_color opts with
         | Some f => <[level := f]> (DefaultColorMap g)
         | None => DefaultColorMap g
         end;
       DefaultFormatterMap :=
         match last_string opts with
         | Some s => <[level := s]> (DefaultFormatterMap g)
         | None => DefaultFormatterMap g
         end |}.
Proof. unfold AddLevel. now rewrite AddLevel_options. Qed.

(** X1. After [AddLevel(level, name, opts...)] the level's name is
    [name]; its formatter is the last string among the options, and
    its colour the last function among them; with no string (no
    function) among the options the level keeps the formatter (the
    colour) it had, the synthesized formatter now carrying the new
    name. *)
Theorem X1_AddLevel_registers (level : LogLevel) (name : string)
    (opts : list opt) (g : Registry) :
  LogLevel.Name (AddLevel level name opts g) level = name
  /\ LogLevel.Formatter (AddLevel level name opts g) level
     = match last_string opts with
       | Some s => s
       | None =>
           match DefaultFormatterMap g !! level with
           | Some formatter => formatter
           | None => "[" ++ name ++ "] %s"
           end
       end
  /\ LogLevel.Color (AddLevel level name opts g) level
     = match last_color opts with
       | Some f => f
       | None => LogLevel.Color g level
       end.
Proof.
  rewrite AddLevel_eq.
  unfold LogLevel.Name, LogLevel.Formatter, LogLevel.Color, LogLevel.Name.
  cbn. rewrite lookup_insert_eq.
  destruct (last_string opts), (last_color opts);
    rewrite ?lookup_insert_eq; repeat split; reflexivity.
Qed.

(** X2. [AddLevel] for one level leaves every other level's name,
    formatter and colour as they were. *)
Theorem X2_AddLevel_other_levels (level other : LogLevel) (name : string)
    (opts : list opt) (g : Registry) :
  other <> level ->
  Levels (AddLevel level name opts g) !! other = Levels g !! other
  /\ DefaultFormatterMap (AddLevel level name opts g) !! other
     = DefaultFormatterMap g !! other
  /\ DefaultColorMap (AddLevel level name opts g) !! other
     = DefaultColorMap g !! other
  /\ LogLevel.Name (AddLevel level name opts g) other = LogLevel.Name g other
  /\ LogLevel.Formatter (AddLevel level name opts g) other
     = LogLevel.Formatter g other
  /\ LogLevel.Color (AddLevel level name opts g) other
     = LogLevel.Color g other.
Proof.
  intros Hne. rewrite AddLevel_eq.
  assert (H1 : Levels
                 {| Levels := <[level := name]> (Levels g);
                    DefaultColorMap :=
                      match last_color opts with
                      | Some f => <[level := f]> (DefaultColorMap g)
                      | None => DefaultColorMap g
                      end;
                    DefaultFormatterMap :=
                      match last_string opts with
                      | Some s => <[level := s]> (DefaultFormatterMap g)
                      | None => DefaultFormatterMap g
                      end |} !! other = Levels g !! other).
  { cbn. now rewrite lookup_insert_ne. }
  assert (H2 : match last_string opts with
               | Some s => <[level := s]> (DefaultFormatterMap g)
               | None => DefaultFormatterMap g
               end !! other = DefaultFormatterMap g !! other).
  { destruct (last_string opts); [now rewrite lookup_insert_ne | reflexivity]. }
  assert (H3 : match last_color opts with
               | Some f => <[level := f]> (DefaultColorMap g)
               | None => DefaultColorMap g
               end !! other = DefaultColorMap g !! other).
  { destruct (last_color opts); [now rewrite lookup_insert_ne | reflexivity]. }
  unfold LogLevel.Formatter, LogLevel.Color, LogLevel.Name. cbn in *.
  rewrite H1, H2, H3. repeat split; reflexivity.
Qed.

Lemma X2_AddLevel_other_levels_witness :
  LogLevel.Name test_registry Warn = "Warn"
  /\ LogLevel.Formatter test_registry Warn = "[Warn] %s " ++ newline.
Proof.
  destruct (X2_AddLevel_other_levels 1 Warn "test" [] (initial tags)
              ltac:(discriminate)) as (_ & _ & _ & Hname & Hfmt & _).
  unfold test_registry. rewrite Hname, Hfmt. split; reflexivity.
Defined.

(** X3. Registering a level a second time with the same arguments
    changes nothing. *)
Theorem X3_AddLevel_idempotent (level : LogLevel) (name : string)
    (opts : list opt) (g : Registry) :
  AddLevel level name opts (AddLevel level name opts g)
  = AddLevel level name opts g.
Proof.
  rewrite !AddLevel_eq. cbn.
  destruct (last_color opts), (last_string opts);
    rewrite ?insert_insert_eq; reflexivity.
Qed.

Lemma percent_free_append (a b : string) :
  percent_free (a ++ b) = percent_free a && percent_free b.
Proof.
  induction a as [|c a IH]; [reflexivity |].
  rewrite append_cons. cbn [percent_free]. rewrite IH. apply andb_assoc.
Qed.

(** X4. A formatter registered by [AddLevel] is the one [Format] uses
    for that level in every logger that holds the package-level map
    (as the loggers of [NewLogger] and [NewFileLogger] do, whenever
    they were made) and in every logger whose own map has no entry for
    the level; an entry in the logger's own map still comes first. *)
Theorem X4_AddLevel_reaches_loggers (g : Registry) (log : Logger)
    (level : LogLevel) (name f : string) (opts : list opt) (s : list value)
    (w : World) (suffix prefix : instant -> string) :
  last_string opts = Some f ->
  SuffixFunc log = Some suffix -> PrefixFunc log = Some prefix ->
  (formatter log = TheDefaultFormatterMap ->
   Logger.Format (AddLevel level name opts g) log level s w
   = Returns (substitute (suffix (clock w)) (prefix (clock w)) (Sprintf f s)))
  /\ (forall m, formatter log = StringMap m -> m !! level = None ->
        Logger.Format (AddLevel level name opts g) log level s w
        = Returns (substitute (suffix (clock w)) (prefix (clock w))
                              (Sprintf f s)))
  /\ (forall m own, formatter log = StringMap m -> m !! level = Some own ->
        Logger.Format (AddLevel level name opts g) log level s w
        = Returns (substitute (suffix (clock w)) (prefix (clock w))
                              (Sprintf own s))).
Proof.
  intros Hlast Hs Hp.
  assert (Hdef : DefaultFormatterMap (AddLevel level name opts g) !! level
                 = Some f).
  { rewrite AddLevel_eq. cbn. rewrite Hlast. apply lookup_insert_eq. }
  rewrite (Format_returns _ _ _ _ _ _ _ Hs Hp).
  unfold raw_line, template_of.
  split; [| split].
  - intros ->. cbn [strings_of]. now rewrite Hdef.
  - intros m -> Hm. cbn [strings_of]. now rewrite Hm, Hdef.
  - intros m own -> Hm. cbn [strings_of]. now rewrite Hm.
Qed.

Lemma X4_AddLevel_reaches_loggers_witness :
  Logger.Format (AddLevel 1 "test" [OptString "<%s>"] (initial tags))
    (Logger.SetLevel 0 Log) 1 [VString "m"] fresh_world
  = Returns "<m>".
Proof.
  destruct (X4_AddLevel_reaches_loggers (initial tags) (Logger.SetLevel 0 Log)
              1 "test" "<%s>" [OptString "<%s>"] [VString "m"] fresh_world
              (fun t => ", " ++ getCurtime t) (fun _ => "")
              eq_refl eq_refl eq_refl) as [Hshared _].
  rewrite (Hshared eq_refl). vm_compute. reflexivity.
Defined.

(** X5. For a level without a registered formatter whose name has no
    percent sign, the template that [LogLevel.Formatter] synthesizes
    renders a message as "[name] message"; the line [Format] falls back
    to for such a level is that text and one more space.  (A percent
    sign in the name would be read as a verb by the first and is
    harmless in the second.) *)
Theorem X5_synthesized_formatter (g : Registry) (log : Logger)
    (level : LogLevel) (m : string) :
  DefaultFormatterMap g !! level = None ->
  percent_free (LogLevel.Name g level) = true ->
  Sprintf (LogLevel.Formatter g level) [VString m]
  = "[" ++ LogLevel.Name g level ++ "] " ++ m
  /\ (template_of g log level = None ->
      raw_line g log level [VString m]
      = Sprintf (LogLevel.Formatter g level) [VString m] ++ " ").
Proof.
  intros Hnone Hfree.
  assert (Hfmt : Sprintf (LogLevel.Formatter g level) [VString m]
                 = "[" ++ LogLevel.Name g level ++ "] " ++ m).
  { unfold LogLevel.Formatter. rewrite Hnone.
    set (name := LogLevel.Name g level) in *.
    replace ("[" ++ name ++ "] %s") with (("[" ++ name ++ "] ") ++ "%s" ++ "")
      by (rewrite !append_assoc; reflexivity).
    rewrite Sprintf_message.
    - change (Sprintf "" []) with "". rewrite append_empty_r.
      rewrite !append_assoc. reflexivity.
    - rewrite !percent_free_append, Hfree. reflexivity. }
  split; [exact Hfmt |].
  intros Ht. unfold raw_line. rewrite Ht, Hfmt.
  change (Sprintf "[%s] %s " [VString (LogLevel.Name g level); VString m])
    with ("[" ++ LogLevel.Name g level ++ "] " ++ m ++ " ").
  rewrite !append_assoc. reflexivity.
Qed.

Lemma X5_synthesized_formatter_witness :
  Sprintf (LogLevel.Formatter test_registry 1) [VString "m"] = "[test] m".
Proof.
  destruct (X5_synthesized_formatter test_registry Log 1 "m"
              eq_refl eq_refl) as [H _].
  rewrite H. reflexivity.
Defined.

Example percent_in_level_name :
  Sprintf (LogLevel.Formatter (AddLevel 1 "50%" [] (initial tags)) 1)
          [VString "m"]
  = "[50%!](string=m) %!s(MISSING)".
Proof. vm_compute. reflexivity. Qed.

(** X6. For a logger that holds the package-level colour map, or whose
    own map (possibly nil, as in a logger of [NewFileLogger]) has no
    entry for the level, [SetLevelColor] colours a line exactly as
    [LogLevel.Color] of that level does. *)
Theorem X6_SetLevelColor_default (g : Registry) (log : Logger)
    (level : LogLevel) (line : string) :
  (colorMap log = TheDefaultColorMap
   \/ exists m, colorMap log = ColorMap m /\ m !! level = None) ->
  Logger.SetLevelColor g log level line = LogLevel.Color g level line.
Proof.
  intros H. unfold Logger.SetLevelColor, LogLevel.Color, defaultColor.
  destruct H as [-> | (m & -> & Hm)]; cbn [colors_of].
  - destruct (DefaultColorMap g !! level); reflexivity.
  - rewrite Hm. destruct (DefaultColorMap g !! level); reflexivity.
Qed.

Lemma X6_SetLevelColor_default_witness :
  Logger.SetLevelColor (initial tags) Log Warn "x" = "<YellowBold>x".
Proof.
  rewrite (X6_SetLevelColor_default (initial tags) Log Warn "x"
             (or_introl eq_refl)).
  reflexivity.
Defined.

Lemma logInterface_SetOutput (g : Registry) (log : Logger) (wr wr' : Writer)
    (level : LogLevel) (s : value) (w : World) :
  Logger.logInterface g (Logger.SetOutput wr' log) wr level s w
  = Logger.logInterface g log wr level s w.
Proof. reflexivity. Qed.

(** X7. Each of the twenty leveled methods does what [Log] does at the
    method's level with the message formatted beforehand ([Sprintf] for
    the [f] methods, [Sprintln] for [FLogf]) on the logger with its
    writer set to the method's target. *)
Theorem X7_methods_are_Log (g : Registry) (log : Logger) (c : call)
    (w : World) :
  run g log c w
  = Logger.Log g (Logger.SetOutput (target_of log c) log) (level_of c)
      (message_of c) w.
Proof.
  rewrite run_logInterface. unfold Logger.Log.
  now rewrite logInterface_SetOutput.
Qed.

(** X8. [Quiet] silences the leveled methods only: on a quiet logger
    with [Clean] off every leveled call leaves the environment alone,
    while [Console], [Consolef] and [FConsolef] still write their text,
    uncoloured and whatever the minimum level, to the logger's writer
    (for [FConsolef], to the writer it is given). *)
Theorem X8_Console_ignores_Quiet (g : Registry) (log : Logger) (w : World) :
  Quiet log = true -> Clean log = false ->
  (forall c, run g log c w = Returns w)
  /\ (forall s, Logger.Console s log w = Fprint (writer log) s w)
  /\ (forall format a,
        Logger.Consolef format a log w
        = Fprint (writer log) (Sprintf format a) w)
  /\ (forall wr format a,
        Logger.FConsolef wr format a log w = Fprint wr (Sprintf format a) w).
Proof.
  intros Hq Hc. split.
  - intros c. rewrite run_logInterface. apply logInterface_shut. now left.
  - unfold Logger.Console, Logger.Consolef, Logger.FConsolef, Fprintf.
    rewrite Hc. repeat split.
Qed.

Lemma X8_Console_ignores_Quiet_witness :
  run (initial tags) (Logger.SetQuiet true Log) (CallError (VString "x"))
      fresh_world = Returns fresh_world
  /\ Logger.Console "x" (Logger.SetQuiet true Log) fresh_world
     = Returns (Print "x" fresh_world).
Proof.
  destruct (X8_Console_ignores_Quiet (initial tags) (Logger.SetQuiet true Log)
              fresh_world eq_refl eq_refl) as (Hrun & Hconsole & _).
  split; [apply Hrun | apply Hconsole].
Defined.

(** X9. With [Color] off the colour maps are never looked at: a leveled
    call does the same whatever the logger's colour map is and whatever
    the package-level colour map holds. *)
Theorem X9_colour_maps_unused (g g' : Registry) (log : Logger)
    (cm : colorMapRef) (c : call) (w : World) :
  Color log = false ->
  Levels g' = Levels g -> DefaultFormatterMap g' = DefaultFormatterMap g ->
  run g' (Logger.SetColorMap cm log) c w = run g log c w.
Proof.
  intros Hc Hl Hf. rewrite !run_logInterface.
  assert (Htarget : target_of (Logger.SetColorMap cm log) c = target_of log c)
    by (destruct c; reflexivity).
  rewrite Htarget.
  assert (Hfmt : forall s,
             Logger.Format g' (Logger.SetColorMap cm log) (level_of c) s w
             = Logger.Format g log (level_of c) s w).
  { intros s. unfold Logger.Format, LogLevel.Name.
    cbn [formatter SuffixFunc PrefixFunc Logger.SetColorMap].
    assert (Hsm : strings_of g' (formatter log) = strings_of g (formatter log))
      by (destruct (formatter log); cbn; congruence).
    now rewrite Hsm, Hf, Hl. }
  unfold Logger.logInterface.
  cbn [Quiet Level Color LogToFile Logger.SetColorMap].
  rewrite Hfmt, Hc. reflexivity.
Qed.

Lemma X9_colour_maps_unused_witness :
  run (AddLevel Warn "Warn" [OptColor (fun s => "!" ++ s)] (initial tags))
      (Logger.SetColorMap (ColorMap ∅) Log) (CallWarn (VString "x"))
      fresh_world
  = Returns (Print ("[Warn] x " ++ newline) fresh_world).
Proof.
  rewrite (X9_colour_maps_unused (initial tags) _ Log (ColorMap ∅)
             (CallWarn (VString "x")) fresh_world eq_refl).
  - vm_compute. reflexivity.
  - vm_compute. reflexivity.
  - vm_compute. reflexivity.
Defined.

(** ** Token replacement *)

Lemma replace_all_absent (old new s : string) :
  occurs old s = false -> replace_all old new s = s.
Proof.
  unfold occurs. induction s as [|c t IH]; intros H; [reflexivity |].
  cbn [tails existsb] in H. apply orb_false_elim in H as [Hp Ht].
  rewrite replace_all_miss by exact Hp. now rewrite IH.
Qed.

Lemma brace_free_append (a b : string) :
  brace_free (a ++ b) = brace_free a && brace_free b.
Proof.
  induction a as [|c a IH]; [reflexivity |].
  rewrite append_cons. cbn [brace_free]. rewrite IH. apply andb_assoc.
Qed.

Lemma brace_free_absent (rest s : string) :
  brace_free s = true -> occurs (String "{" rest) s = false.
Proof.
  unfold occurs. induction s as [|c t IH]; intros H; [reflexivity |].
  cbn [brace_free] in H. apply andb_prop in H as [Hc Ht].
  cbn [tails existsb]. rewrite (IH Ht), orb_false_r.
  apply negb_true_iff in Hc. apply Ascii.eqb_neq in Hc.
  destruct (String.prefix (String "{" rest) (String c t)) eqn:Hp;
    [| reflexivity].
  apply prefix_cons in Hp as [Heq _]. congruence.
Qed.

Lemma substitute_brace_free (sfx pfx line : string) :
  brace_free line = true -> substitute sfx pfx line = line.
Proof.
  intros H. unfold substitute.
  rewrite !Replace_replace_all by discriminate.
  rewrite (replace_all_absent "{{suffix}}") by now apply brace_free_absent.
  apply replace_all_absent. now apply brace_free_absent.
Qed.

(** X10. A line in which neither token occurs comes out of [Format] as
    [Sprintf] made it, whatever the two producers return, under a
    registered formatter and under the fallback alike; in particular a
    line without an opening brace does. *)
Theorem X10_no_token_no_change (g : Registry) (log : Logger)
    (level : LogLevel) (s : list value) (w : World)
    (suffix prefix : instant -> string) :
  SuffixFunc log = Some suffix -> PrefixFunc log = Some prefix ->
  (forall f,
     template_of g log level = Some f ->
     (occurs "{{suffix}}" (Sprintf f s) = false
      /\ occurs "{{prefix}}" (Sprintf f s) = false)
     \/ brace_free (Sprintf f s) = true ->
     Logger.Format g log level s w = Returns (Sprintf f s))
  /\ (forall line,
        template_of g log level = None ->
        line = Sprintf "[%s] %s " (VString (LogLevel.Name g level) :: s) ->
        (occurs "{{suffix}}" line = false /\ occurs "{{prefix}}" line = false)
        \/ brace_free line = true ->
        Logger.Format g log level s w = Returns line).
Proof.
  intros Hs Hp.
  assert (Hpass : forall line,
             (occurs "{{suffix}}" line = false
              /\ occurs "{{prefix}}" line = false)
             \/ brace_free line = true ->
             substitute (suffix (clock w)) (prefix (clock w)) line = line).
  { intros line [[H1 H2] | Hb].
    - unfold substitute. rewrite !Replace_replace_all by discriminate.
      rewrite (replace_all_absent "{{suffix}}") by exact H1.
      now apply replace_all_absent.
    - now apply substitute_brace_free. }
  split.
  - intros f Ht Hfree.
    rewrite (Format_returns _ _ _ _ _ _ _ Hs Hp). unfold raw_line.
    rewrite Ht. f_equal. now apply Hpass.
  - intros line Ht -> Hfree.
    rewrite (Format_returns _ _ _ _ _ _ _ Hs Hp). unfold raw_line.
    rewrite Ht. f_equal. now apply Hpass.
Qed.

Lemma X10_no_token_no_change_witness :
  Logger.Format (initial tags) Log Error [VString "disk full"] fresh_world
  = Returns ("[Error] disk full " ++ newline)
  /\ Logger.Format test_registry Log 1 [VString "disk full"] fresh_world
     = Returns "[test] disk full ".
Proof.
  split.
  - apply (proj1 (X10_no_token_no_change (initial tags) Log Error
                    [VString "disk full"] fresh_world
                    (fun t => ", " ++ getCurtime t) (fun _ => "")
                    eq_refl eq_refl)
             ("[Error] %s " ++ newline) eq_refl).
    right. reflexivity.
  - apply (proj2 (X10_no_token_no_change test_registry Log 1
                    [VString "disk full"] fresh_world
                    (fun t => ", " ++ getCurtime t) (fun _ => "")
                    eq_refl eq_refl)
             "[test] disk full " eq_refl eq_refl).
    right. reflexivity.
Defined.

(** ** Setters *)

(** X11. Two plain setters on different fields can be called in either
    order; of two calls of the same setter the later one decides. *)
Theorem X11_setters_commute (x y : setting) (log : Logger) :
  (field_of x <> field_of y -> set x (set y log) = set y (set x log))
  /\ (field_of x = field_of y -> set x (set y log) = set x log).
Proof.
  split; intros H; destruct x, y; try reflexivity;
    try discriminate H; exfalso; apply H; reflexivity.
Qed.

Lemma X11_setters_commute_witness :
  Logger.SetLevel Debug (Logger.SetColor true Log)
  = Logger.SetColor true (Logger.SetLevel Debug Log)
  /\ Logger.SetLevel Debug (Logger.SetLevel Error Log)
     = Logger.SetLevel Debug Log.
Proof.
  split.
  - apply (proj1 (X11_setters_commute (SetLevel Debug) (SetColor true) Log)).
    discriminate.
  - apply (proj2 (X11_setters_commute (SetLevel Debug) (SetLevel Error) Log)).
    reflexivity.
Defined.

(** ** The log file *)

Lemma Fprint_not_a_file (wr : Writer) (s : string) (w : World) :
  not_a_file wr = true ->
  exists w1,
    Fprint wr s w = Returns w1
    /\ files w1 = files w /\ open_files w1 = open_files w
    /\ (wr = Stdout -> stdout w1 = stdout w ++ s /\ sinks w1 = sinks w)
    /\ (forall id, wr = Sink id ->
          stdout w1 = stdout w
          /\ sinks w1 = <[id := default "" (sinks w !! id) ++ s]> (sinks w)).
Proof.
  destruct wr as [| | f | id]; try discriminate; intros _; eexists;
    (split; [reflexivity |]); cbn;
    (split; [reflexivity |]); (split; [reflexivity |]); split.
  - intros _. split; reflexivity.
  - intros id [=].
  - intros [=].
  - intros id' [= <-]. split; reflexivity.
Qed.

Lemma WriteString_keeps_ready (log : Logger) (f : File) (data : string)
    (w : World) :
  log_file_ready log w -> log_file_ready log (snd (os.WriteString f data w)).
Proof.
  unfold log_file_ready, os.WriteString.
  destruct (logFile log) as [lf|]; [| trivial].
  intros [off Hoff].
  destruct (open_files w !! fd f) as [d|] eqn:Hd; [| now exists off].
  destruct (decide (fd f = fd lf)) as [Heq | Hne].
  - rewrite Heq, Hoff in Hd. injection Hd as <-. cbn.
    rewrite Heq, lookup_insert_eq. eexists. reflexivity.
  - destruct (d_access d); cbn; rewrite ?lookup_insert_ne by exact Hne;
      now exists off.
Qed.

Lemma Fprint_keeps_ready (log : Logger) (wr : Writer) (s : string)
    (w w1 : World) :
  Fprint wr s w = Returns w1 -> log_file_ready log w -> log_file_ready log w1.
Proof.
  destruct wr as [| | f | id]; cbn; intros H Hr;
    try discriminate; injection H as <-; try exact Hr.
  now apply WriteString_keeps_ready.
Qed.

Lemma writeToFile_keeps_ready (log : Logger) (line : string) (w : World) :
  log_file_ready log w -> log_file_ready log (Logger.writeToFile log line w).
Proof.
  intros Hr. unfold Logger.writeToFile.
  destruct (logFile log) as [f|] eqn:Hf.
  - pose proof (WriteString_keeps_ready log f line w Hr) as H.
    destruct (os.WriteString f line w) as [[err|] w1]; cbn in H; exact H.
  - unfold log_file_ready. now rewrite Hf.
Qed.

Lemma run_keeps_ready (g : Registry) (log : Logger) (c : call)
    (w w1 : World) :
  run g log c w = Returns w1 -> log_file_ready log w -> log_file_ready log w1.
Proof.
  rewrite run_logInterface. unfold Logger.logInterface. intros H Hr.
  destruct (negb (Quiet log) && (Level log <=? level_of c));
    [| injection H as <-; exact Hr].
  destruct (Logger.Format g log (level_of c) [message_of c] w) as [line|];
    [| discriminate].
  rewrite bind_Returns in H.
  assert (Hw : forall shown,
             (w2 ← Fprint (target_of log c) shown w;
              if LogToFile log then Returns (Logger.writeToFile log line w2)
              else Returns w2) = Returns w1 ->
             log_file_ready log w1).
  { intros shown Hshown.
    destruct (Fprint (target_of log c) shown w) as [w2|] eqn:Hp;
      [| discriminate].
    rewrite bind_Returns in Hshown.
    pose proof (Fprint_keeps_ready log _ _ _ _ Hp Hr) as Hr2.
    destruct (LogToFile log); injection Hshown as <-;
      [now apply writeToFile_keeps_ready | exact Hr2]. }
  destruct (Color log); eapply Hw; exact H.
Qed.

Lemma InitLogFile_ready (log : Logger) (w : World) :
  log_file_ready (fst (Logger.InitLogFile log w))
                 (snd (Logger.InitLogFile log w)).
Proof.
  destruct (can_open w (LogFileName log)) eqn:Hopen.
  - rewrite InitLogFile_opens by exact Hopen. unfold log_file_ready. cbn.
    exists 0%nat. apply lookup_insert_eq.
  - rewrite InitLogFile_fails by exact Hopen. exact I.
Qed.

Lemma Close_logFile (remove : bool) (log : Logger) (w : World) :
  logFile (fst (Logger.Close remove log w)) = None.
Proof.
  unfold Logger.Close.
  destruct (logFile log) as [f|] eqn:Hf; destruct remove; cbn;
    try (destruct (os.Remove _ _) as [[err|] w1]; cbn);
    try reflexivity; exact Hf.
Qed.

Lemma invoke_keeps_ready (m : method) (log log' : Logger) (w w' : World) :
  invoke m log w = Returns (log', w') ->
  log_file_ready log w -> log_file_ready log' w'.
Proof.
  destruct m as [x | l | | remove | s | format a | wr format a | g c];
    cbn [invoke]; intros H Hr.
  - injection H as <- <-. unfold log_file_ready in *.
    now destruct x.
  - injection H as H. unfold Logger.SetIsLogToFile in H.
    cbn [LogToFile set_LogToFile] in H. destruct l.
    + pose proof (InitLogFile_ready (set_LogToFile true log) w) as Hi.
      rewrite H in Hi. exact Hi.
    + unfold log_file_ready.
      destruct (logFile (set_LogToFile false log)) eqn:Hf;
        injection H as <- <-; cbn; [exact I |].
      cbn in Hf. now rewrite Hf.
  - injection H as H.
    pose proof (InitLogFile_ready log w) as Hi. rewrite H in Hi. exact Hi.
  - injection H as H. unfold log_file_ready.
    pose proof (Close_logFile remove log w) as Hc. rewrite H in Hc.
    cbn in Hc. now rewrite Hc.
  - unfold Logger.Console in H. destruct (negb (Clean log)).
    + destruct (Fprint (writer log) s w) as [w1|] eqn:Hp; [| discriminate].
      injection H as <- <-. eapply Fprint_keeps_ready; eassumption.
    + injection H as <- <-. exact Hr.
  - unfold Logger.Consolef, Fprintf in H. destruct (negb (Clean log)).
    + destruct (Fprint (writer log) _ w) as [w1|] eqn:Hp; [| discriminate].
      injection H as <- <-. eapply Fprint_keeps_ready; eassumption.
    + injection H as <- <-. exact Hr.
  - unfold Logger.FConsolef, Fprintf in H. destruct (negb (Clean log)).
    + destruct (Fprint wr _ w) as [w1|] eqn:Hp; [| discriminate].
      injection H as <- <-. eapply Fprint_keeps_ready; eassumption.
    + injection H as <- <-. exact Hr.
  - destruct (run g log c w) as [w1|] eqn:Hrun; [| discriminate].
    injection H as <- <-. eapply run_keeps_ready; eassumption.
Qed.

(** X12. Whatever methods are called on a logger, in whatever order,
    its log file handle is either nil or an open descriptor in append
    mode on the path it was opened with: no method leaves the logger
    holding a closed or foreign descriptor. *)
Theorem X12_log_file_stays_ready (ms : list method) (log log' : Logger)
    (w w' : World) :
  log_file_ready log w ->
  invoke_all ms log w = Returns (log', w') ->
  log_file_ready log' w'.
Proof.
  revert log w. induction ms as [|m ms IH]; intros log w Hr H.
  - injection H as <- <-. exact Hr.
  - cbn [invoke_all] in H.
    destruct (invoke m log w) as [[log1 w1]|] eqn:Hm; [| discriminate].
    rewrite bind_Returns in H.
    eapply IH; [| exact H]. eapply invoke_keeps_ready; eassumption.
Qed.

Lemma X12_log_file_stays_ready_witness :
  exists log' w',
    invoke_all
      [Setter (SetFile "app.log"); MSetIsLogToFile true;
       Leveled (initial tags) (CallWarn (VString "x"));
       MSetIsLogToFile true; MConsole "c"]
      Log fresh_world = Returns (log', w')
    /\ log_file_ready log' w'.
Proof.
  do 2 eexists. split; [vm_compute; reflexivity |].
  apply (X12_log_file_stays_ready
           [Setter (SetFile "app.log"); MSetIsLogToFile true;
            Leveled (initial tags) (CallWarn (VString "x"));
            MSetIsLogToFile true; MConsole "c"]
           Log _ fresh_world _ I).
  vm_compute. reflexivity.
Defined.

Lemma writeToFile_ready (log : Logger) (line : string) (w : World) (f : File) :
  log_file_ready log w -> logFile log = Some f ->
  files (Logger.writeToFile log line w)
  = <[name f := default "" (files w !! name f) ++ line]> (files w)
  /\ stdout (Logger.writeToFile log line w) = stdout w
  /\ sinks (Logger.writeToFile log line w) = sinks w.
Proof.
  unfold log_file_ready, Logger.writeToFile, os.WriteString.
  intros Hr Hf. rewrite Hf in *. destruct Hr as [off Hoff].
  rewrite Hoff. cbn. repeat split.
Qed.

Lemma run_emission (g : Registry) (log : Logger) (c : call) (w : World)
    (line : string) :
  Quiet log = false -> Level log <= level_of c ->
  Logger.Format g log (level_of c) [message_of c] w = Returns line ->
  run g log c w = emission g log (target_of log c) (level_of c) line w.
Proof.
  intros Hq Hl Hf. rewrite run_logInterface, logInterface_open by assumption.
  now rewrite Hf, bind_Returns.
Qed.

Lemma emission_with_log_file (g : Registry) (log : Logger) (wr : Writer)
    (level : LogLevel) (w : World) (f : File) (line shown : string) :
  log_file_ready log w -> logFile log = Some f -> LogToFile log = true ->
  shown = (if Color log then Logger.SetLevelColor g log level line else line) ->
  not_a_file wr = true ->
  exists w',
    emission g log wr level line w = Returns w'
    /\ files w' = <[name f := default "" (files w !! name f) ++ line]> (files w)
    /\ (wr = Stdout -> stdout w' = stdout w ++ shown /\ sinks w' = sinks w)
    /\ (forall id, wr = Sink id ->
          stdout w' = stdout w
          /\ sinks w' = <[id := default "" (sinks w !! id) ++ shown]> (sinks w)).
Proof.
  intros Hr Hf Hfile -> Htarget. unfold emission.
  destruct (Fprint_not_a_file _
              (if Color log then Logger.SetLevelColor g log level line
               else line) w Htarget)
    as (w1 & Hp & Hfiles & Hopen & Hout & Hsink).
  rewrite Hp, bind_Returns, Hfile.
  assert (Hr1 : log_file_ready log w1)
    by (eapply Fprint_keeps_ready; eassumption).
  destruct (writeToFile_ready log line w1 f Hr1 Hf) as (Hwf & Hwo & Hws).
  eexists. split; [reflexivity |].
  rewrite Hwf, Hwo, Hws, Hfiles. split; [reflexivity |]. split.
  - intros Ht. now apply Hout.
  - intros id Ht. now apply Hsink.
Qed.

(** X13. With file logging on and the log file open, a leveled call
    that passes the guard and targets standard output or a writer of
    the caller's makes exactly two writes: the line, coloured if
    [Color] is set, at the end of the target, and the plain line at the
    end of the log file.  Every other file and every other writer stay
    as they were, and nothing else reaches standard output. *)
Theorem X13_one_line_to_each_sink (g : Registry) (log : Logger) (c : call)
    (w : World) (f : File) (line shown : string) :
  log_file_ready log w -> logFile log = Some f -> LogToFile log = true ->
  Quiet log = false -> Level log <= level_of c ->
  Logger.Format g log (level_of c) [message_of c] w = Returns line ->
  shown = (if Color log then Logger.SetLevelColor g log (level_of c) line
           else line) ->
  not_a_file (target_of log c) = true ->
  exists w',
    run g log c w = Returns w'
    /\ files w' = <[name f := default "" (files w !! name f) ++ line]> (files w)
    /\ (target_of log c = Stdout ->
        stdout w' = stdout w ++ shown /\ sinks w' = sinks w)
    /\ (forall id, target_of log c = Sink id ->
          stdout w' = stdout w
          /\ sinks w' = <[id := default "" (sinks w !! id) ++ shown]> (sinks w)).
Proof.
  intros Hr Hf Hfile Hq Hl Hfmt Hshown Htarget.
  rewrite (run_emission _ _ _ _ _ Hq Hl Hfmt).
  destruct (emission_with_log_file g log (target_of log c) (level_of c) w f
              line shown Hr Hf Hfile Hshown Htarget)
    as (w' & Hrun & Hfiles & Hout & Hsink).
  exists w'. split; [exact Hrun |]. split; [exact Hfiles |].
  split; [exact Hout | exact Hsink].
Qed.

Lemma X13_one_line_to_each_sink_witness :
  exists w',
    run (initial tags) (fst color_logger_and_world) (CallWarn (VString "x"))
        (snd color_logger_and_world) = Returns w'
    /\ files w' = {[ "app.log" := "[Warn] x " ++ newline ]}
    /\ sinks w' = {[ 0%nat := "<YellowBold>[Warn] x " ++ newline ]}
    /\ stdout w' = "".
Proof.
  destruct (X13_one_line_to_each_sink (initial tags)
              (fst color_logger_and_world) (CallWarn (VString "x"))
              (snd color_logger_and_world)
              {| fd := 3; name := "app.log" |}
              ("[Warn] x " ++ newline)
              ("<YellowBold>[Warn] x " ++ newline))
    as (w' & Hrun & Hfiles & _ & Hsink).
  - exists 0%nat. reflexivity.
  - reflexivity.
  - reflexivity.
  - reflexivity.
  - vm_compute. discriminate.
  - reflexivity.
  - reflexivity.
  - reflexivity.
  - destruct (Hsink 0%nat eq_refl) as [Hout Hs].
    exists w'. split; [exact Hrun |].
    rewrite Hfiles, Hs, Hout. repeat split; vm_compute; reflexivity.
Defined.

(** X14. With file logging off, a leveled call that targets standard
    output or a writer of the caller's touches no file and no
    descriptor, whether or not a log file is open. *)
Theorem X14_file_logging_off (g : Registry) (log : Logger) (c : call)
    (w w' : World) :
  LogToFile log = false -> not_a_file (target_of log c) = true ->
  run g log c w = Returns w' ->
  files w' = files w /\ open_files w' = open_files w.
Proof.
  intros Hfile Htarget. rewrite run_logInterface.
  unfold Logger.logInterface. rewrite Hfile.
  destruct (negb (Quiet log) && (Level log <=? level_of c));
    [| intros [= <-]; split; reflexivity].
  destruct (Logger.Format g log (level_of c) [message_of c] w) as [line|];
    [| discriminate].
  rewrite bind_Returns.
  assert (Hw : forall shown,
             (w2 ← Fprint (target_of log c) shown w; Returns w2) = Returns w' ->
             files w' = files w /\ open_files w' = open_files w).
  { intros shown.
    destruct (Fprint_not_a_file _ shown w Htarget)
      as (w1 & Hp & Hfiles & Hopen & _).
    rewrite Hp, bind_Returns. intros [= <-]. split; assumption. }
  destruct (Color log); apply Hw.
Qed.

Lemma X14_file_logging_off_witness :
  files (Print ("[Warn] x " ++ newline) fresh_world) = files fresh_world
  /\ open_files (Print ("[Warn] x " ++ newline) fresh_world)
     = open_files fresh_world.
Proof.
  apply (X14_file_logging_off (initial tags) Log (CallWarn (VString "x"))
           fresh_world (Print ("[Warn] x " ++ newline) fresh_world)
           eq_refl eq_refl).
  vm_compute. reflexivity.
Defined.

Lemma run_SetFile (g : Registry) (log : Logger) (q : string) (c : call)
    (w : World) :
  run g (Logger.SetFile q log) c w = run g log c w.
Proof.
  rewrite !run_logInterface.
  assert (Htarget : target_of (Logger.SetFile q log) c = target_of log c)
    by (destruct c; reflexivity).
  now rewrite Htarget.
Qed.

(** X15. [SetFile] alone does not redirect an open log file: after it,
    leveled calls still append to the file that was opened, and the
    file at the new path is not touched, until [SetIsLogToFile(true)]
    or [InitLogFile] is called again. *)
Theorem X15_SetFile_does_not_redirect (g : Registry) (log : Logger)
    (q : string) (c : call) (w : World) (f : File) (line : string) :
  log_file_ready log w -> logFile log = Some f -> LogToFile log = true ->
  Quiet log = false -> Level log <= level_of c ->
  Logger.Format g log (level_of c) [message_of c] w = Returns line ->
  not_a_file (target_of log c) = true ->
  q <> name f ->
  exists w',
    run g (Logger.SetFile q log) c w = Returns w'
    /\ files w' !! name f = Some (default "" (files w !! name f) ++ line)
    /\ files w' !! q = files w !! q
    /\ logFile (Logger.SetFile q log) = Some f.
Proof.
  intros Hr Hf Hfile Hq Hl Hfmt Htarget Hne.
  rewrite run_SetFile, (run_emission _ _ _ _ _ Hq Hl Hfmt).
  destruct (emission_with_log_file g log (target_of log c) (level_of c) w f
              line _ Hr Hf Hfile eq_refl Htarget) as (w' & Hrun & Hfiles & _).
  exists w'. split; [exact Hrun |].
  rewrite Hfiles, lookup_insert_eq, lookup_insert_ne by congruence.
  repeat split. exact Hf.
Qed.

Lemma X15_SetFile_does_not_redirect_witness :
  exists w',
    run (initial tags)
        (Logger.SetFile "other.log" (fst color_logger_and_world))
        (CallWarn (VString "x")) (snd color_logger_and_world) = Returns w'
    /\ files w' !! "app.log" = Some ("[Warn] x " ++ newline)
    /\ files w' !! "other.log" = None.
Proof.
  destruct (X15_SetFile_does_not_redirect (initial tags)
              (fst color_logger_and_world) "other.log"
              (CallWarn (VString "x")) (snd color_logger_and_world)
              {| fd := 3; name := "app.log" |} ("[Warn] x " ++ newline))
    as (w' & Hrun & Hlog & Hother & _).
  - exists 0%nat. reflexivity.
  - reflexivity.
  - reflexivity.
  - reflexivity.
  - vm_compute. discriminate.
  - reflexivity.
  - reflexivity.
  - discriminate.
  - exists w'. split; [exact Hrun |]. split; [exact Hlog | exact Hother].
Defined.

(** X16. Calling [SetIsLogToFile(true)] on a logger whose log file is
    open reopens it: the bytes of the file are kept, the descriptor the
    logger held is closed and one new descriptor takes its place, so
    repeated calls never pile up open descriptors. *)
Theorem X16_reopen_keeps_the_file (log log' : Logger) (w w' : World)
    (f : File) (content : string) :
  logFile log = Some f ->
  can_open w (LogFileName log) = true ->
  files w !! LogFileName log = Some content ->
  Logger.SetIsLogToFile true log w = (log', w') ->
  files w' = files w
  /\ logFile log' = Some {| fd := next_fd w; name := LogFileName log |}
  /\ open_files w'
     = <[next_fd w := {| d_path := LogFileName log; d_access := O_WRONLY;
                         d_append := true; d_offset := 0 |}]>
         (delete (fd f) (open_files w))
  /\ log_file_ready log' w'.
Proof.
  intros Hf Hopen Hcontent Hset.
  unfold Logger.SetIsLogToFile in Hset. cbn [LogToFile set_LogToFile] in Hset.
  rewrite InitLogFile_opens in Hset by exact Hopen.
  injection Hset as <- <-. unfold released. cbn. rewrite Hf, Hcontent. cbn.
  split; [now apply insert_id |]. split; [reflexivity |].
  split; [reflexivity |].
  unfold log_file_ready. cbn. exists 0%nat. apply lookup_insert_eq.
Qed.

Lemma X16_reopen_keeps_the_file_witness :
  files (snd (Logger.SetIsLogToFile true (fst color_logger_and_world)
                (snd color_logger_and_world)))
  = files (snd color_logger_and_world)
  /\ size (open_files
             (snd (Logger.SetIsLogToFile true (fst color_logger_and_world)
                     (snd color_logger_and_world)))) = 1%nat.
Proof.
  destruct (X16_reopen_keeps_the_file (fst color_logger_and_world)
              (fst (Logger.SetIsLogToFile true (fst color_logger_and_world)
                      (snd color_logger_and_world)))
              (snd color_logger_and_world)
              (snd (Logger.SetIsLogToFile true (fst color_logger_and_world)
                      (snd color_logger_and_world)))
              {| fd := 3; name := "app.log" |} ""
              eq_refl eq_refl eq_refl eq_refl) as (Hfiles & _ & Hopen & _).
  split; [exact Hfiles |]. rewrite Hopen. vm_compute. reflexivity.
Defined.

Lemma Close_false (log : Logger) (w : World) :
  Logger.Close false log w = (set_logFile None log, released log w).
Proof.
  unfold Logger.Close, released. destruct (logFile log) eqn:Hf;
    [reflexivity |].
  f_equal. destruct log; cbn in *. now subst.
Qed.

(** X17. [Close(false)] closes the log file and makes the handle nil
    without touching any file, any other field or the [LogToFile]
    flag; a second [Close(false)] changes nothing.  Since the flag
    stays as it was, a logger closed while file logging is on prints
    the missing-file diagnostic on every leveled call that passes the
    guard, until [SetIsLogToFile] is called again. *)
Theorem X17_Close_keeps_the_flag (log log' : Logger) (w w' : World) :
  Logger.Close false log w = (log', w') ->
  logFile log' = None
  /\ only_changes [FlogFile] log log'
  /\ files w' = files w /\ stdout w' = stdout w
  /\ (forall f, logFile log = Some f -> open_files w' !! fd f = None)
  /\ Logger.Close false log' w' = (log', w')
  /\ (forall g c w1 w2 line,
        LogToFile log = true ->
        Quiet log = false -> Level log <= level_of c ->
        Logger.Format g log' (level_of c) [message_of c] w1 = Returns line ->
        Fprint (target_of log' c)
               (if Color log' then Logger.SetLevelColor g log' (level_of c) line
                else line) w1 = Returns w2 ->
        run g log' c w1
        = Returns (Println "Error: Log file is not initialized." w2)).
Proof.
  rewrite Close_false. intros [= <- <-].
  split; [reflexivity |]. split; [frame_of_setter |].
  split; [unfold released; destruct (logFile log); reflexivity |].
  split; [unfold released; destruct (logFile log); reflexivity |].
  split; [| split].
  - intros f Hf. unfold released. rewrite Hf. cbn. apply lookup_delete_eq.
  - rewrite Close_false. reflexivity.
  - intros g c w1 w2 line Hfile Hq Hl Hfmt Hp.
    rewrite (run_emission g (set_logFile None log) c w1 line Hq Hl Hfmt).
    unfold emission.
    rewrite Hp, bind_Returns. cbn [LogToFile set_logFile]. rewrite Hfile.
    reflexivity.
Qed.

Lemma X17_Close_keeps_the_flag_witness :
  run (initial tags)
      (fst (Logger.Close false (fst color_logger_and_world)
              (snd color_logger_and_world)))
      (CallWarn (VString "x"))
      (snd (Logger.Close false (fst color_logger_and_world)
              (snd color_logger_and_world)))
  = Returns
      (Println "Error: Log file is not initialized."
         (with_sinks {[ 0%nat := "<YellowBold>[Warn] x " ++ newline ]}
            (snd (Logger.Close false (fst color_logger_and_world)
                    (snd color_logger_and_world))))).
Proof.
  destruct (X17_Close_keeps_the_flag (fst color_logger_and_world)
              (fst (Logger.Close false (fst color_logger_and_world)
                      (snd color_logger_and_world)))
              (snd color_logger_and_world)
              (snd (Logger.Close false (fst color_logger_and_world)
                      (snd color_logger_and_world)))
              eq_refl) as (_ & _ & _ & _ & _ & _ & Hemit).
  apply (Hemit (initial tags) (CallWarn (VString "x")) _ _
           ("[Warn] x " ++ newline) eq_refl eq_refl
           ltac:(vm_compute; discriminate) eq_refl).
  vm_compute. reflexivity.
Defined.




Lemma Close_true_missing (log : Logger) (w : World) :
  files w !! LogFileName log = None ->
  Logger.Close true log w
  = (set_logFile None log,
     Print (Sprintf ("Error removing logfile: "
                     ++ errorString (PathError "remove" (LogFileName log)
                                       "no such file or directory")) [])
           (released log w)).
Proof.
  intros Hc. unfold Logger.Close, released, os.Remove.
  destruct (logFile log) eqn:Hf; cbn [LogFileName set_logFile files os.Close
                                        with_files];
    rewrite Hc; [reflexivity |].
  f_equal. destruct log; cbn in *. now subst.
Qed.

(** X19. [Close(true)] on a logger whose log file does not exist
    removes nothing and reports the failure on standard output,
    without a newline.  The error text is used as the format string of
    [Printf]: it is printed as it is when the path has no percent
    sign. *)
Theorem X19_Close_reports_missing_file (log log1 : Logger) (w w1 : World) :
  files w !! LogFileName log = None ->
  percent_free (LogFileName log) = true ->
  Logger.Close true log w = (log1, w1) ->
  logFile log1 = None
  /\ files w1 = files w
  /\ stdout w1
     = stdout w ++ "Error removing logfile: remove " ++ LogFileName log
       ++ ": no such file or directory".
Proof.
  intros Hnone Hfree Hclose.
  rewrite (Close_true_missing _ _ Hnone) in Hclose.
  injection Hclose as <- <-.
  split; [reflexivity |].
  split; [unfold released; destruct (logFile log); reflexivity |].
  rewrite Sprintf_plain
    by (unfold errorString; rewrite !percent_free_append, Hfree; reflexivity).
  unfold released. destruct (logFile log); reflexivity.
Qed.

Lemma X19_Close_reports_missing_file_witness :
  stdout (snd (Logger.Close true (Logger.SetFile "app.log" Log) fresh_world))
  = "Error removing logfile: remove app.log: no such file or directory".
Proof.
  destruct (Logger.Close true (Logger.SetFile "app.log" Log) fresh_world)
    as [log1 w1] eqn:Hclose.
  destruct (X19_Close_reports_missing_file (Logger.SetFile "app.log" Log)
              log1 fresh_world w1 eq_refl eq_refl Hclose) as (_ & _ & Hout).
  cbn [snd]. rewrite Hout. reflexivity.
Defined.

Example percent_in_the_path :
  stdout (snd (Logger.Close true (Logger.SetFile "50%log" Log) fresh_world))
  = "Error removing logfile: remove 50%!l(MISSING)og: no such file or directory".
Proof. vm_compute. reflexivity. Qed.

(** ** The logger of [NewFileLogger] *)

Lemma substring_prefix (a b : string) :
  substring 0 (String.length a) (a ++ b) = a.
Proof.
  induction a as [|c a IH]; [now destruct b |].
  rewrite append_cons. cbn. now rewrite IH.
Qed.

Lemma skip_skip (n k : nat) (s : string) : skip k (skip n s) = skip (n + k) s.
Proof.
  revert s. induction n as [|n IH]; intros s; [reflexivity |].
  destruct s as [|c s]; [now destruct k | apply IH].
Qed.

Lemma skip_past (a b : string) (k : nat) :
  skip (String.length a + k) (a ++ b) = skip k b.
Proof.
  induction a as [|c a IH]; [reflexivity |].
  rewrite append_cons. exact IH.
Qed.

Lemma write_at_start (data old : string) :
  os.write_at 0 data old = data ++ skip (String.length data) old.
Proof. unfold os.write_at. now destruct (old ++ os.zeros (0 - String.length old)). Qed.

Lemma write_at_next (a data old : string) :
  os.write_at (String.length a) data (a ++ skip (String.length a) old)
  = a ++ data ++ skip (String.length a + String.length data) old.
Proof.
  unfold os.write_at.
  replace (String.length a - String.length (a ++ skip (String.length a) old))%nat
    with 0%nat by (rewrite length_append; lia).
  cbn [os.zeros]. rewrite append_empty_r, substring_prefix.
  now rewrite skip_past, skip_skip.
Qed.

Lemma Fprint_at_offset (f : File) (data : string) (w : World) (d : descriptor) :
  open_files w !! fd f = Some d ->
  d_append d = false -> d_access d = O_RDWR ->
  Fprint (FileWriter f) data w
  = Returns
      (with_files
         (<[d_path d := os.write_at (d_offset d) data
                          (default "" (files w !! d_path d))]> (files w))
         (<[fd f := {| d_path := d_path d; d_access := O_RDWR;
                       d_append := false;
                       d_offset := (d_offset d + String.length data)%nat |}]>
            (open_files w))
         (next_fd w) w).
Proof.
  intros Hd Ha Hacc. unfold Fprint, os.WriteString.
  rewrite Hd, Hacc, Ha. reflexivity.
Qed.

Lemma Format_clock (g : Registry) (log : Logger) (level : LogLevel)
    (s : list value) (w w' : World) :
  clock w = clock w' ->
  Logger.Format g log level s w = Logger.Format g log level s w'.
Proof. intros H. unfold Logger.Format. now rewrite H. Qed.

(** X20. A logger of [NewFileLogger] writes from the start of its
    file, over what the file holds: after its first line the file is
    that line followed by the old bytes beyond the line's length, and
    the second line goes right after the first.  Nothing is written to
    standard output. *)
Theorem X20_NewFileLogger_writes_over (g : Registry) (path : string)
    (log : Logger) (w w1 : World) (c1 c2 : call) (line1 line2 old : string) :
  NewFileLogger path w = ((Some log, None), w1) ->
  old = default "" (files w !! path) ->
  target_of log c1 = writer log -> target_of log c2 = writer log ->
  Warn <= level_of c1 -> Warn <= level_of c2 ->
  Logger.Format g log (level_of c1) [message_of c1] w1 = Returns line1 ->
  Logger.Format g log (level_of c2) [message_of c2] w1 = Returns line2 ->
  exists w2 w3,
    run g log c1 w1 = Returns w2
    /\ files w2 !! path = Some (line1 ++ skip (String.length line1) old)
    /\ run g log c2 w2 = Returns w3
    /\ files w3 !! path
       = Some (line1 ++ line2
               ++ skip (String.length line1 + String.length line2) old)
    /\ stdout w3 = stdout w.
Proof.
  intros Hnew -> Ht1 Ht2 Hl1 Hl2 Hf1 Hf2.
  unfold NewFileLogger, os.OpenFile in Hnew.
  destruct (can_open w path); [| discriminate].
  assert (Hlog : log
                 = {| Quiet := false; Clean := false; Level := Warn;
                      Color := false; LogToFile := false; LogFileName := "";
                      SuffixFunc := Some (fun t => ", " ++ getCurtime t);
                      PrefixFunc := Some (fun _ => "");
                      logFile := None;
                      writer := FileWriter {| fd := next_fd w; name := path |};
                      levels := TheLevels;
                      formatter := TheDefaultFormatterMap;
                      colorMap := ColorMap ∅ |}
                 /\ w1 = with_files
                           (<[path := default "" (files w !! path)]> (files w))
                           (<[next_fd w := {| d_path := path;
                                              d_access := O_RDWR;
                                              d_append := false;
                                              d_offset := 0 |}]> (open_files w))
                           (S (next_fd w)) w).
  { destruct (files w !! path); cbn in Hnew; injection Hnew as <- <-;
      split; reflexivity. }
  clear Hnew. destruct Hlog as [Hlog Hw1].
  set (f := {| fd := next_fd w; name := path |}) in *.
  assert (Hq : Quiet log = false) by (now rewrite Hlog).
  assert (Hlv : Level log = Warn) by (now rewrite Hlog).
  assert (Hc : Color log = false) by (now rewrite Hlog).
  assert (Hfile : LogToFile log = false) by (now rewrite Hlog).
  assert (Hwr : writer log = FileWriter f) by (now rewrite Hlog).
  rewrite <- Hlv in Hl1, Hl2.
  rewrite (run_emission _ _ _ _ _ Hq Hl1 Hf1). unfold emission.
  rewrite Hc, Hfile, Ht1, Hwr.
  erewrite Fprint_at_offset;
    [| rewrite Hw1; cbn; apply lookup_insert_eq | reflexivity | reflexivity].
  rewrite bind_Returns. cbn [d_path d_offset].
  eexists. eexists. split; [reflexivity |].
  split.
  { cbn. rewrite lookup_insert_eq, Hw1. cbn. rewrite lookup_insert_eq.
    cbn. now rewrite write_at_start. }
  erewrite run_emission; [| exact Hq | exact Hl2 |].
  2:{ erewrite Format_clock; [exact Hf2 |]. rewrite Hw1. reflexivity. }
  unfold emission. rewrite Hc, Hfile, Ht2, Hwr.
  erewrite Fprint_at_offset;
    [| cbn; apply lookup_insert_eq | reflexivity | reflexivity].
  rewrite bind_Returns. split; [reflexivity |].
  cbn. rewrite !lookup_insert_eq, Hw1. cbn. rewrite lookup_insert_eq. cbn.
  rewrite write_at_start, write_at_next. split; reflexivity.
Qed.

Lemma X20_NewFileLogger_writes_over_witness :
  exists w2 w3,
    run (initial tags) file_logger (CallWarn (VString "x"))
        (snd (NewFileLogger "app.log" used_world)) = Returns w2
    /\ files w2 !! "app.log"
       = Some ("[Warn] x " ++ newline ++ "ABCDEFGHIJKLMNOP")
    /\ run (initial tags) file_logger (CallError (VString "y")) w2
       = Returns w3
    /\ files w3 !! "app.log"
       = Some ("[Warn] x " ++ newline ++ "[Error] y " ++ newline ++ "LMNOP").
Proof.
  destruct (X20_NewFileLogger_writes_over (initial tags) "app.log" file_logger
              used_world (snd (NewFileLogger "app.log" used_world))
              (CallWarn (VString "x")) (CallError (VString "y"))
              ("[Warn] x " ++ newline) ("[Error] y " ++ newline)
              "0123456789ABCDEFGHIJKLMNOP"
              eq_refl eq_refl eq_refl eq_refl
              ltac:(vm_compute; discriminate) ltac:(vm_compute; discriminate)
              eq_refl eq_refl)
    as (w2 & w3 & H1 & H2 & H3 & H4 & _).
  exists w2, w3. repeat split; assumption.
Defined.

(** ** The timestamp *)

Lemma fits_append (l1 l2 s1 s2 : string) :
  fits l1 s1 = true -> fits l2 s2 = true -> fits (l1 ++ l2) (s1 ++ s2) = true.
Proof.
  revert s1. induction l1 as [|l l1 IH]; intros s1 H1 H2.
  - destruct s1; [exact H2 | discriminate].
  - destruct s1 as [|c s1]; [discriminate |].
    rewrite !append_cons. cbn [fits] in *.
    apply andb_prop in H1 as [Hc H1]. rewrite Hc. now apply IH.
Qed.

Lemma fits_length (l s : string) :
  fits l s = true -> String.length s = String.length l.
Proof.
  revert s. induction l as [|c l IH]; intros [|d s] H; try discriminate;
    [reflexivity |].
  cbn [fits] in H. apply andb_prop in H as [_ H]. cbn. now rewrite (IH _ H).
Qed.

Lemma fits_brace_free (l s : string) :
  fits l s = true -> brace_free l = true -> brace_free s = true.
Proof.
  revert s. induction l as [|c l IH]; intros [|d s] H Hb; try discriminate;
    [reflexivity |].
  cbn [fits brace_free] in *.
  apply andb_prop in H as [Hc H]. apply andb_prop in Hb as [Hb1 Hb2].
  rewrite (IH _ H Hb2), andb_true_r.
  destruct (Ascii.eqb c "0") eqn:H0.
  - destruct (Ascii.eqb d "{") eqn:Hd; [| reflexivity].
    apply Ascii.eqb_eq in Hd. subst d. discriminate.
  - apply Ascii.eqb_eq in Hc. now subst d.
Qed.

Lemma pad_4 (n : nat) : Z.of_nat n < 10000 -> fits "0000" (pad 4 n) = true.
Proof.
  intros H.
  assert (Hall : forallb (fun n => fits "0000" (pad 4 n))
                         (seq 0 (Z.to_nat 10000)) = true)
    by (vm_compute; reflexivity).
  rewrite forallb_forall in Hall. apply Hall. apply in_seq. lia.
Qed.

Lemma pad_2 (n : nat) : Z.of_nat n < 100 -> fits "00" (pad 2 n) = true.
Proof.
  intros H.
  assert (Hall : forallb (fun n => fits "00" (pad 2 n))
                         (seq 0 (Z.to_nat 100)) = true)
    by (vm_compute; reflexivity).
  rewrite forallb_forall in Hall. apply Hall. apply in_seq. lia.
Qed.

Lemma getCurtime_fits (t : instant) :
  on_the_clock t = true -> fits "0000-00-00 00:00.00" (getCurtime t) = true.
Proof.
  unfold on_the_clock. intros H.
  repeat (apply andb_prop in H as [H ?]).
  repeat match goal with Hx : (_ <? _) = true |- _ => apply Z.ltb_lt in Hx end.
  unfold getCurtime.
  change "0000-00-00 00:00.00"
    with ("0000" ++ "-" ++ "00" ++ "-" ++ "00" ++ " " ++ "00" ++ ":" ++ "00"
          ++ "." ++ "00").
  repeat first
    [ apply fits_append; [first [now apply pad_4 | now apply pad_2 | reflexivity] |]
    | now apply pad_2 ].
Qed.

(** X21. For a clock reading with a year below 10000 (and month, day,
    hour, minute and second of at most two digits) [getCurtime] gives
    19 bytes in the shape "YYYY-MM-DD HH:MM.SS", every field padded
    with zeros, a full stop between minutes and seconds. *)
Theorem X21_getCurtime_shape (t : instant) :
  on_the_clock t = true ->
  fits "0000-00-00 00:00.00" (getCurtime t) = true
  /\ String.length (getCurtime t) = 19%nat.
Proof.
  intros H. pose proof (getCurtime_fits t H) as Hfits.
  split; [exact Hfits |]. now rewrite (fits_length _ _ Hfits).
Qed.

Lemma X21_getCurtime_shape_witness :
  fits "0000-00-00 00:00.00" (getCurtime morning) = true
  /\ String.length (getCurtime morning) = 19%nat.
Proof. apply (X21_getCurtime_shape morning). reflexivity. Defined.

(** ** The lines of the built-in levels *)

Lemma Replace_brace_free (old_rest new line : string) :
  brace_free line = true ->
  Replace line (String "{" old_rest) new = line.
Proof.
  intros H. rewrite Replace_replace_all by discriminate.
  apply replace_all_absent. now apply brace_free_absent.
Qed.

Lemma plain_line (tag m sfx pfx : string) :
  brace_free tag = true -> percent_free tag = true -> brace_free m = true ->
  substitute sfx pfx (Sprintf (tag ++ "%s " ++ newline) [VString m])
  = tag ++ m ++ " " ++ newline.
Proof.
  intros Htag Hpct Hm.
  replace (tag ++ "%s " ++ newline) with (tag ++ "%s" ++ (" " ++ newline))
    by reflexivity.
  rewrite Sprintf_message by exact Hpct.
  change (Sprintf (" " ++ newline) []) with (" " ++ newline).
  apply substitute_brace_free.
  rewrite !brace_free_append, Htag, Hm. reflexivity.
Qed.

Lemma timed_line (tag m sfx : string) :
  brace_free tag = true -> percent_free tag = true -> brace_free m = true ->
  brace_free sfx = true ->
  substitute sfx "" (Sprintf (tag ++ "%s {{suffix}}" ++ newline) [VString m])
  = tag ++ m ++ " " ++ sfx ++ newline.
Proof.
  intros Htag Hpct Hm Hsfx.
  replace (tag ++ "%s {{suffix}}" ++ newline)
    with (tag ++ "%s" ++ (" {{suffix}}" ++ newline)) by reflexivity.
  rewrite Sprintf_message by exact Hpct.
  change (Sprintf (" {{suffix}}" ++ newline) [])
    with (" " ++ "{{suffix}}" ++ newline).
  replace (tag ++ m ++ " " ++ "{{suffix}}" ++ newline)
    with ((tag ++ m ++ " ") ++ "{{suffix}}" ++ newline)
    by (now rewrite !append_assoc).
  rewrite substitute_suffix_inside.
  rewrite (Replace_brace_free "{suffix}}" sfx (tag ++ m ++ " "))
    by (rewrite !brace_free_append, Htag, Hm; reflexivity).
  change (Replace newline "{{suffix}}" sfx) with newline.
  rewrite (Replace_brace_free "{prefix}}")
    by (rewrite !brace_free_append, Htag, Hm, Hsfx; reflexivity).
  now rewrite !append_assoc.
Qed.

(** X22. The lines of the six built-in levels, for a logger with the
    package-level formatters and the producers that [NewLogger] and
    [NewFileLogger] install, and a message without an opening brace:
    [Debug], [Warn] and [Error] give "[Level] message " and a newline;
    [Info], [Hint] and [Important] give "[-] ", "[+] " or "[*] ", the
    message, " , ", the time of the call and a newline. *)
Theorem X22_builtin_lines (p : Palette) (log : Logger) (m : string)
    (w : World) :
  formatter log = TheDefaultFormatterMap ->
  SuffixFunc log = Some (fun t => ", " ++ getCurtime t) ->
  PrefixFunc log = Some (fun _ => "") ->
  brace_free m = true -> on_the_clock (clock w) = true ->
  Logger.Format (initial p) log Debug [VString m] w
  = Returns ("[Debug] " ++ m ++ " " ++ newline)
  /\ Logger.Format (initial p) log Warn [VString m] w
     = Returns ("[Warn] " ++ m ++ " " ++ newline)
  /\ Logger.Format (initial p) log Error [VString m] w
     = Returns ("[Error] " ++ m ++ " " ++ newline)
  /\ Logger.Format (initial p) log Info [VString m] w
     = Returns ("[-] " ++ m ++ " , " ++ getCurtime (clock w) ++ newline)
  /\ Logger.Format (initial p) log Hint [VString m] w
     = Returns ("[+] " ++ m ++ " , " ++ getCurtime (clock w) ++ newline)
  /\ Logger.Format (initial p) log Important [VString m] w
     = Returns ("[*] " ++ m ++ " , " ++ getCurtime (clock w) ++ newline).
Proof.
  intros Hfm Hs Hp Hm Hclock.
  assert (Htime : brace_free (", " ++ getCurtime (clock w)) = true).
  { rewrite brace_free_append.
    rewrite (fits_brace_free _ _ (getCurtime_fits _ Hclock)); reflexivity. }
  assert (Hraw : forall level f,
             DefaultFormatterMap (initial p) !! level = Some f ->
             Logger.Format (initial p) log level [VString m] w
             = Returns (substitute (", " ++ getCurtime (clock w)) ""
                          (Sprintf f [VString m]))).
  { intros level f Hf. rewrite (Format_returns _ _ _ _ _ _ _ Hs Hp).
    unfold raw_line, template_of. rewrite Hfm. cbn [strings_of].
    now rewrite Hf. }
  repeat split.
  - rewrite (Hraw Debug ("[Debug] " ++ "%s " ++ newline) eq_refl).
    now rewrite plain_line.
  - rewrite (Hraw Warn ("[Warn] " ++ "%s " ++ newline) eq_refl).
    now rewrite plain_line.
  - rewrite (Hraw Error ("[Error] " ++ "%s " ++ newline) eq_refl).
    now rewrite plain_line.
  - rewrite (Hraw Info ("[-] " ++ "%s {{suffix}}" ++ newline) eq_refl).
    rewrite timed_line by (reflexivity || assumption).
    now rewrite !append_assoc.
  - rewrite (Hraw Hint ("[+] " ++ "%s {{suffix}}" ++ newline) eq_refl).
    rewrite timed_line by (reflexivity || assumption).
    now rewrite !append_assoc.
  - rewrite (Hraw Important ("[*] " ++ "%s {{suffix}}" ++ newline) eq_refl).
    rewrite timed_line by (reflexivity || assumption).
    now rewrite !append_assoc.
Qed.

Lemma X22_builtin_lines_witness :
  Logger.Format (initial tags) Log Hint [VString "ready"] fresh_world
  = Returns ("[+] ready , 2024-03-09 07:05.01" ++ newline).
Proof.
  destruct (X22_builtin_lines tags Log "ready" fresh_world
              eq_refl eq_refl eq_refl eq_refl eq_refl)
    as (_ & _ & _ & _ & Hhint & _).
  rewrite Hhint. reflexivity.
Defined.

(** ** Constructors and nil writers *)

(** X23. A leveled call on a logger fresh from [NewLogger(level)] never
    panics: below [level] it does nothing, and from [level] on it
    prints exactly its line, uncoloured, on standard output, with the
    time of the call for every suffix token and nothing for a prefix
    token, and touches no file. *)
Theorem X23_NewLogger_calls (g : Registry) (level : LogLevel) (c : call)
    (w : World) :
  target_of (NewLogger level) c = Stdout ->
  (level_of c < level -> run g (NewLogger level) c w = Returns w)
  /\ (level <= level_of c ->
      run g (NewLogger level) c w
      = Returns
          (Print (substitute (", " ++ getCurtime (clock w)) ""
                    (raw_line g (NewLogger level) (level_of c) [message_of c]))
                 w)).
Proof.
  intros Ht. split.
  - intros Hlt. rewrite run_logInterface. apply logInterface_shut. now right.
  - intros Hle.
    rewrite (run_emission g (NewLogger level) c w _ eq_refl Hle
               (Format_returns g (NewLogger level) (level_of c) _ w _ _
                  eq_refl eq_refl)).
    unfold emission. rewrite Ht. reflexivity.
Qed.

Lemma X23_NewLogger_calls_witness :
  run (initial tags) (NewLogger Info) (CallDebug (VString "x")) fresh_world
  = Returns fresh_world
  /\ run (initial tags) (NewLogger Info) (CallError (VString "x")) fresh_world
     = Returns (Print ("[Error] x " ++ newline) fresh_world).
Proof.
  split.
  - apply (proj1 (X23_NewLogger_calls (initial tags) Info
                    (CallDebug (VString "x")) fresh_world eq_refl)).
    reflexivity.
  - rewrite (proj2 (X23_NewLogger_calls (initial tags) Info
                      (CallError (VString "x")) fresh_world eq_refl)
               ltac:(vm_compute; discriminate)).
    vm_compute. reflexivity.
Defined.

(** X24. A nil writer, set with [SetOutput] or handed to an [F]
    method, is harmless as long as the call does not pass the guard:
    the call returns and changes nothing.  A call that passes the
    guard panics, whatever the other settings of the logger are. *)
Theorem X24_nil_writer (g : Registry) (log : Logger) (c : call) (w : World) :
  target_of log c = NilWriter ->
  (Quiet log = true \/ level_of c < Level log -> run g log c w = Returns w)
  /\ (Quiet log = false -> Level log <= level_of c ->
      run g log c w = Panics).
Proof.
  intros Ht. rewrite run_logInterface. split.
  - apply logInterface_shut.
  - intros Hq Hl. rewrite logInterface_open by assumption.
    destruct (Logger.Format g log (level_of c) [message_of c] w) as [line|];
      [| reflexivity].
    rewrite bind_Returns. unfold emission. rewrite Ht.
    destruct (Color log); reflexivity.
Qed.

Lemma X24_nil_writer_witness :
  run (initial tags) (Logger.SetOutput NilWriter Log) (CallInfo (VString "x"))
      fresh_world = Returns fresh_world
  /\ run (initial tags) (Logger.SetOutput NilWriter Log)
         (CallWarn (VString "x")) fresh_world = Panics.
Proof.
  split.
  - apply (proj1 (X24_nil_writer (initial tags) (Logger.SetOutput NilWriter Log)
                    (CallInfo (VString "x")) fresh_world eq_refl)).
    right. reflexivity.
  - apply (proj2 (X24_nil_writer (initial tags) (Logger.SetOutput NilWriter Log)
                    (CallWarn (VString "x")) fresh_world eq_refl) eq_refl).
    vm_compute. discriminate.
Defined.
